(** * cc-iching: the daily hexagram hook (hooks/iching.ts)

    A shallow embedding of the casting code, the binary-to-King-Wen codec,
    the four derived hexagrams and the per-day reveal logic of [main],
    followed by the properties of the specification that concern them.

    Conventions of the embedding:
    - JavaScript numbers that are only ever small integers are [Z]; the
      32-bit coercion of [|], [&] and [<<] is written out ([ToInt32]).
    - A value that may be [undefined] or [null] at run time is a [jsnum].
    - A thrown [TypeError] is the [Throw] outcome; the only loop that is
      not bounded by a literal ([getRandomStyle]) takes a budget and
      answers [Spin] when the budget is used up.
    - The entropy source is an oracle [nat -> byte] read through a cursor.
    - The two files under ~/.claude and the standard output are fields of
      a [World] that is threaded through [main]. File operations are taken
      to succeed; the text columns of [GUA] (u, n, p, dx, tu, en, te, w)
      are not needed by any property and a rendered line is kept as the
      arguments of its template ([Text]). *)

From Stdlib Require Import ZArith List Bool String Ascii Lia QArith.
From Stdlib Require Import DecimalString.
From Stdlib Require Strings.Byte.
From Stdlib Require DecimalZ DecimalPos.
Import ListNotations.

Open Scope Z_scope.

(* ------------------------------------------------------------------ *)
(** ** JavaScript values and outcomes *)

Inductive jsnum : Type :=
| JUndefined
| JNull
| JNum (z : Z).

Definition jsnum_eqb (a b : jsnum) : bool :=
  match a, b with
  | JUndefined, JUndefined => true
  | JNull, JNull => true
  | JNum x, JNum y => x =? y
  | _, _ => false
  end.

Inductive outcome (A : Type) : Type :=
| Ok (a : A)
| Throw
| Spin.
Arguments Ok {A} a.
Arguments Throw {A}.
Arguments Spin {A}.

Definition obind {A B} (m : outcome A) (k : A -> outcome B) : outcome B :=
  match m with
  | Ok a => k a
  | Throw => Throw
  | Spin => Spin
  end.

Declare Scope js_scope.
Delimit Scope js_scope with js.
Notation "'let!' x ':=' m 'in' k" := (obind m (fun x => k))
  (at level 10, x name, m at level 100, k at level 200) : js_scope.
Open Scope js_scope.

(** [xs[i]]: [None] stands for [undefined]. *)
Definition index {A} (xs : list A) (i : Z) : option A :=
  if i <? 0 then None else nth_error xs (Z.to_nat i).

(** Reading a property of [xs[i]] throws when the entry is [undefined]. *)
Definition deref {A} (xs : list A) (i : Z) : outcome A :=
  match index xs i with
  | Some a => Ok a
  | None => Throw
  end.

(** [lo, lo+1, ..., lo+n-1]: the values a counting [for] loop runs over. *)
Definition Zrange (lo : Z) (n : nat) : list Z :=
  map (fun k => lo + Z.of_nat k) (seq 0 n).

(** 32-bit integer operators. *)
Definition ToInt32 (z : Z) : Z := (z + 2 ^ 31) mod 2 ^ 32 - 2 ^ 31.
Definition js_or (a b : Z) : Z := ToInt32 (Z.lor (ToInt32 a) (ToInt32 b)).
Definition js_and (a b : Z) : Z := ToInt32 (Z.land (ToInt32 a) (ToInt32 b)).
Definition js_shl (a b : Z) : Z := ToInt32 (Z.shiftl (ToInt32 a) (b mod 32)).

(* ------------------------------------------------------------------ *)
(** ** Types *)

Inductive Style : Type := dx | tu | en | te | w.

Inductive DerivedType : Type := Dnuclear | Dshadow | Dmirror | Dbecoming.

(** Hexagram entry of [GUA]; only the line pattern [l] is kept. *)
Record Hexagram : Type := mkHexagram { l : list Z }.

Record Line : Type := mkLine {
  value : Z;
  isYang : bool;
  isChanging : bool
}.

Module Cast.
Record t : Type := mk {
  lines : list Line;
  primary : jsnum;
  becoming : jsnum;
  changingPositions : list Z;
  nuclear : jsnum;
  shadow : jsnum;
  mirror : jsnum
}.
End Cast.

Module DailyCache.
Record t : Type := mk {
  date : string;
  cast : Cast.t;
  shown : bool
}.
End DailyCache.

Module HistoryEntry.
Record t : Type := mk {
  date : string;
  cast : Cast.t
}.
End HistoryEntry.

(* ------------------------------------------------------------------ *)
(** ** Data *)

Definition STYLES : list Style := [dx; tu; en; te; w].

Definition BINARY_TO_KW : list Z := [
  2; 24; 7; 19; 15; 36; 46; 11; 16; 51; 40; 54; 62; 55; 32; 34; 8; 3; 29; 60;
  39; 63; 48; 5; 45; 17; 47; 58; 31; 49; 28; 43; 23; 27; 4; 41; 52; 22; 18; 26;
  35; 21; 64; 38; 56; 30; 50; 14; 20; 42; 59; 61; 53; 37; 57; 9; 12; 25; 6; 10;
  33; 13; 44; 1
].

Definition GUA : list Hexagram := [
  mkHexagram [1; 1; 1; 1; 1; 1];
  mkHexagram [0; 0; 0; 0; 0; 0];
  mkHexagram [1; 0; 0; 0; 1; 0];
  mkHexagram [0; 1; 0; 0; 0; 1];
  mkHexagram [1; 1; 1; 0; 1; 0];
  mkHexagram [0; 1; 0; 1; 1; 1];
  mkHexagram [0; 1; 0; 0; 0; 0];
  mkHexagram [0; 0; 0; 0; 1; 0];
  mkHexagram [1; 1; 1; 0; 1; 1];
  mkHexagram [1; 1; 0; 1; 1; 1];
  mkHexagram [1; 1; 1; 0; 0; 0];
  mkHexagram [0; 0; 0; 1; 1; 1];
  mkHexagram [1; 0; 1; 1; 1; 1];
  mkHexagram [1; 1; 1; 1; 0; 1];
  mkHexagram [0; 0; 1; 0; 0; 0];
  mkHexagram [0; 0; 0; 1; 0; 0];
  mkHexagram [1; 0; 0; 1; 1; 0];
  mkHexagram [0; 1; 1; 0; 0; 1];
  mkHexagram [1; 1; 0; 0; 0; 0];
  mkHexagram [0; 0; 0; 0; 1; 1];
  mkHexagram [1; 0; 0; 1; 0; 1];
  mkHexagram [1; 0; 1; 0; 0; 1];
  mkHexagram [0; 0; 0; 0; 0; 1];
  mkHexagram [1; 0; 0; 0; 0; 0];
  mkHexagram [1; 0; 0; 1; 1; 1];
  mkHexagram [1; 1; 1; 0; 0; 1];
  mkHexagram [1; 0; 0; 0; 0; 1];
  mkHexagram [0; 1; 1; 1; 1; 0];
  mkHexagram [0; 1; 0; 0; 1; 0];
  mkHexagram [1; 0; 1; 1; 0; 1];
  mkHexagram [0; 0; 1; 1; 1; 0];
  mkHexagram [0; 1; 1; 1; 0; 0];
  mkHexagram [0; 0; 1; 1; 1; 1];
  mkHexagram [1; 1; 1; 1; 0; 0];
  mkHexagram [0; 0; 0; 1; 0; 1];
  mkHexagram [1; 0; 1; 0; 0; 0];
  mkHexagram [1; 0; 1; 0; 1; 1];
  mkHexagram [1; 1; 0; 1; 0; 1];
  mkHexagram [0; 0; 1; 0; 1; 0];
  mkHexagram [0; 1; 0; 1; 0; 0];
  mkHexagram [1; 1; 0; 0; 0; 1];
  mkHexagram [1; 0; 0; 0; 1; 1];
  mkHexagram [1; 1; 1; 1; 1; 0];
  mkHexagram [0; 1; 1; 1; 1; 1];
  mkHexagram [0; 0; 0; 1; 1; 0];
  mkHexagram [0; 1; 1; 0; 0; 0];
  mkHexagram [0; 1; 0; 1; 1; 0];
  mkHexagram [0; 1; 1; 0; 1; 0];
  mkHexagram [1; 0; 1; 1; 1; 0];
  mkHexagram [0; 1; 1; 1; 0; 1];
  mkHexagram [1; 0; 0; 1; 0; 0];
  mkHexagram [0; 0; 1; 0; 0; 1];
  mkHexagram [0; 0; 1; 0; 1; 1];
  mkHexagram [1; 1; 0; 1; 0; 0];
  mkHexagram [1; 0; 1; 1; 0; 0];
  mkHexagram [0; 0; 1; 1; 0; 1];
  mkHexagram [0; 1; 1; 0; 1; 1];
  mkHexagram [1; 1; 0; 1; 1; 0];
  mkHexagram [0; 1; 0; 0; 1; 1];
  mkHexagram [1; 1; 0; 0; 1; 0];
  mkHexagram [1; 1; 0; 0; 1; 1];
  mkHexagram [0; 0; 1; 1; 0; 0];
  mkHexagram [1; 0; 1; 0; 1; 0];
  mkHexagram [0; 1; 0; 1; 0; 1]
].

(** [BINARY_TO_KW[i]] as a JavaScript value. *)
Definition kw_at (i : Z) : jsnum :=
  match index BINARY_TO_KW i with
  | Some k => JNum k
  | None => JUndefined
  end.

(* ------------------------------------------------------------------ *)
(** ** Codec and derived hexagrams *)

(** The [for (let i = 0; i < 6; i++)] loop of [linesToBinary]. *)
Definition linesToBinary (lines : list Line) : outcome Z :=
  fold_left
    (fun acc i =>
       let! binary := acc in
       let! li := deref lines i in
       Ok (if isYang li then js_or binary (js_shl 1 i) else binary))
    (Zrange 0 6) (Ok 0).

(** The array literal of [nuclear] holds [lines[1]], [lines[2]], [lines[3]],
    [lines[2]], [lines[3]], [lines[4]]. An [undefined] entry makes
    [linesToBinary] throw when it reads [.isYang]; nothing observable
    happens in between, so the entries are fetched with [deref]. *)
Definition nuclear (lines : list Line) : outcome jsnum :=
  let! a := deref lines 1 in
  let! b := deref lines 2 in
  let! c := deref lines 3 in
  let! d := deref lines 2 in
  let! e := deref lines 3 in
  let! f := deref lines 4 in
  let nuclearLines := [a; b; c; d; e; f] in
  let! binary := linesToBinary nuclearLines in
  Ok (kw_at binary).

Definition shadow (lines : list Line) : outcome jsnum :=
  let inverted :=
    map (fun li => mkLine (value li) (negb (isYang li)) (isChanging li)) lines in
  let! binary := linesToBinary inverted in
  Ok (kw_at binary).

Definition mirror (lines : list Line) : outcome jsnum :=
  let! binary := linesToBinary (rev lines) in
  Ok (kw_at binary).

(** [verifyBinaryTable]: the index it computes for one entry; [None] is the
    NaN that arithmetic on a missing [g.l[i]] gives. *)
Definition verify_index (g : Hexagram) : option Z :=
  match index (l g) 0, index (l g) 1, index (l g) 2,
        index (l g) 3, index (l g) 4, index (l g) 5 with
  | Some l0, Some l1, Some l2, Some l3, Some l4, Some l5 =>
      let lower := l0 + l1 * 2 + l2 * 4 in
      let upper := l3 + l4 * 2 + l5 * 4 in
      Some (lower + upper * 8)
  | _, _, _, _, _, _ => None
  end.

(** [verifyBinaryTable] returns the identifiers for which it pushed an
    error (the message text is dropped); [Throw] when [GUA[kw - 1]] is
    [undefined]. *)
Definition verifyBinaryTable : outcome (list Z) :=
  fold_left
    (fun acc kw =>
       let! errors := acc in
       let! g := deref GUA (kw - 1) in
       let found :=
         match verify_index g with
         | Some i => kw_at i
         | None => JUndefined
         end in
       Ok (if jsnum_eqb found (JNum kw) then errors else errors ++ [kw]))
    (Zrange 1 64) (Ok []).

(* ------------------------------------------------------------------ *)
(** ** Hexagrams as identifiers

    The derived-hexagram functions take lines. To speak of "the mirror of
    identifier x" an identifier is turned into six stable lines from the
    pattern stored for it in [GUA] (7 for a yang line, 8 for a yin line). *)

Definition line_of_bit (bit : Z) : Line :=
  if bit =? 1 then mkLine 7 true false else mkLine 8 false false.

Definition lines_of_pattern (p : list Z) : list Line := map line_of_bit p.

Definition lines_of_id (kw : Z) : outcome (list Line) :=
  let! g := deref GUA (kw - 1) in
  Ok (lines_of_pattern (l g)).

Definition on_id (f : list Line -> outcome jsnum) (kw : Z) : jsnum :=
  match (let! ls := lines_of_id kw in f ls) with
  | Ok v => v
  | _ => JUndefined
  end.

Definition mirror_id : Z -> jsnum := on_id mirror.
Definition shadow_id : Z -> jsnum := on_id shadow.

Definition identifiers : list Z := Zrange 1 64.

(* ------------------------------------------------------------------ *)
(** ** The codec as the specification words it

    [encode]: bit i is 1 iff line i is yang, bit 0 the bottom line;
    [toCanonical]: the table; a derived sequence picked by 1-indexed
    positions of the original. *)

Fixpoint spec_encode_from (i : nat) (lines : list Line) : Z :=
  match lines with
  | [] => 0
  | li :: rest =>
      (if isYang li then 2 ^ Z.of_nat i else 0) + spec_encode_from (S i) rest
  end.

Definition spec_encode (lines : list Line) : Z := spec_encode_from 0 lines.

Definition spec_toCanonical (b : Z) : Z := nth (Z.to_nat b) BINARY_TO_KW 0.

Definition spec_pick (positions : list nat) (lines : list Line) : list Line :=
  map (fun p => nth (p - 1) lines (mkLine 8 false false)) positions.

Definition spec_nuclear_at (positions : list nat) (lines : list Line) : Z :=
  spec_toCanonical (spec_encode (spec_pick positions lines)).

(* ------------------------------------------------------------------ *)
(** ** Environment and world *)

(** What [new Date()] gives in the local time zone: [getMonth] is 0-based. *)
Record LocalDate : Type := mkDate {
  getFullYear : Z;
  getMonth : Z;
  getDate : Z
}.

(** Content of ~/.claude/iching.json. [Stored c] is JSON text that parses
    to the record [c]; [Unparseable] is a file that exists and on which
    [file.json()] throws. JSON text of any other shape is not modelled. *)
Inductive FileContent : Type :=
| Absent
| Unparseable
| Stored (c : DailyCache.t).

(** A line written by [console.log], kept as the arguments of its template:
    - [TReading k s b]: [formatReading] for primary [k] in style [s], with
      the becoming identifier and the joined positions when present;
    - [TSelfMirror zh k s]: the self-mirroring label of [formatDerived]
      ([zh] is true for the Chinese tag);
    - [TDerived ty k s]: [DERIVED_LABELS[ty]] followed by entry [k];
    - [TEmpty]: the empty string.
    A style read from [STYLES] out of range would be [undefined]: [None]. *)
Inductive Text : Type :=
| TReading (kw : Z) (style : Style) (to : option (Z * list Z))
| TSelfMirror (zh : bool) (kw : Z) (style : option Style)
| TDerived (ty : DerivedType) (kw : Z) (style : option Style)
| TEmpty.

(** Truthiness of a string: every rendered template is non-empty. *)
Definition text_truthy (t : Text) : bool :=
  match t with
  | TEmpty => false
  | _ => true
  end.

Record Env : Type := mkEnv {
  randomByte : nat -> Byte.byte;
  now : LocalDate;
  stdin_is_json : bool
}.

Record World : Type := mkWorld {
  cache_file : FileContent;
  history_file : list HistoryEntry.t;
  stdout : list Text;
  cache_writes : nat;
  drawn : nat;
  exit_code : option Z
}.

Definition M (A : Type) : Type := Env -> World -> outcome A * World.

Definition ret {A} (a : A) : M A := fun _ w => (Ok a, w).

Definition bind {A B} (m : M A) (k : A -> M B) : M B :=
  fun env w =>
    match m env w with
    | (Ok a, w') => k a env w'
    | (Throw, w') => (Throw, w')
    | (Spin, w') => (Spin, w')
    end.

Definition lift {A} (o : outcome A) : M A := fun _ w => (o, w).

Notation "'do' x <- m ; k" := (bind m (fun x => k))
  (at level 10, x name, m at level 100, k at level 200) : js_scope.
Notation "'do' ' pat <- m ; k" :=
  (bind m (fun x => match x with pat => k end))
  (at level 10, pat pattern, m at level 100, k at level 200) : js_scope.

Definition byte_to_Z (b : Byte.byte) : Z := Z.of_N (Byte.to_N b).

(** The [n] bytes the source yields from position [p] on. *)
Definition bytes_at (env : Env) (p n : nat) : list Z :=
  map (fun k => byte_to_Z (randomByte env (p + k))) (seq 0 n).

Definition advance (n : nat) (w : World) : World :=
  mkWorld (cache_file w) (history_file w) (stdout w) (cache_writes w)
          (drawn w + n) (exit_code w).

(** [randomBytes(n)] *)
Definition randomBytes (n : nat) : M (list Z) :=
  fun env w => (Ok (bytes_at env (drawn w) n), advance n w).

(** [await Bun.stdin.json()] *)
Definition read_stdin : M unit :=
  fun env w => (if stdin_is_json env then Ok tt else Throw, w).

(** [(await file.exists()) ? await file.json() : null] *)
Definition read_cache : M (option DailyCache.t) :=
  fun _ w =>
    match cache_file w with
    | Absent => (Ok None, w)
    | Unparseable => (Throw, w)
    | Stored c => (Ok (Some c), w)
    end.

(** [await Bun.write(CACHE, JSON.stringify(cache))] *)
Definition write_cache (c : DailyCache.t) : M unit :=
  fun _ w =>
    (Ok tt,
     mkWorld (Stored c) (history_file w) (stdout w) (S (cache_writes w))
             (drawn w) (exit_code w)).

(** [console.log(out)] *)
Definition console_log (t : Text) : M unit :=
  fun _ w =>
    (Ok tt,
     mkWorld (cache_file w) (history_file w) (stdout w ++ [t]) (cache_writes w)
             (drawn w) (exit_code w)).

(** [process.exit(code)] *)
Definition set_exit (code : Z) (w : World) : World :=
  mkWorld (cache_file w) (history_file w) (stdout w) (cache_writes w)
          (drawn w) (Some code).

Definition process_exit (code : Z) : M unit :=
  fun _ w => (Ok tt, set_exit code w).

(* ------------------------------------------------------------------ *)
(** ** Casting *)

(** [xs.reduce((a, b) => a + b)] without an initial value. *)
Definition reduce_add (xs : list Z) : outcome Z :=
  match xs with
  | [] => Throw
  | x :: rest => Ok (fold_left Z.add rest x)
  end.

(** The body of [castLine] after the three bytes are drawn. A missing byte
    would read as [undefined], which [&] coerces to 0. *)
Definition line_of_bytes (bytes : list Z) : outcome Line :=
  let coins := [js_and (nth 0 bytes 0) 1;
                js_and (nth 1 bytes 0) 1;
                js_and (nth 2 bytes 0) 1] in
  let! sum := reduce_add (map (fun c => if c =? 0 then 2 else 3) coins) in
  Ok (mkLine sum
             ((sum =? 7) || (sum =? 9))
             ((sum =? 6) || (sum =? 9))).

Definition castLine : M Line :=
  do bytes <- randomBytes 3;
  lift (line_of_bytes bytes).

(** [lines.forEach((l, i) => { if (l.isChanging) changingPositions.push(i + 1) })] *)
Fixpoint push_changing (i : Z) (lines : list Line) : list Z :=
  match lines with
  | [] => []
  | li :: rest =>
      (if isChanging li then [i + 1] else []) ++ push_changing (i + 1) rest
  end.

(** [castHexagram] once the six lines are pushed. *)
Definition cast_of_lines (lines : list Line) : outcome Cast.t :=
  let! primaryBinary := linesToBinary lines in
  let primary := kw_at primaryBinary in
  let hasChanging := existsb isChanging lines in
  let! changed :=
    (if hasChanging then
       let becomingLines :=
         map (fun li =>
                mkLine (value li)
                       (if isChanging li then negb (isYang li) else isYang li)
                       (isChanging li)) lines in
       let! becomingBinary := linesToBinary becomingLines in
       Ok (kw_at becomingBinary, push_changing 0 lines)
     else Ok (JNull, [])) in
  let! n := nuclear lines in
  let! s := shadow lines in
  let! m := mirror lines in
  Ok (Cast.mk lines primary (fst changed) (snd changed) n s m).

(** The [for (let i = 0; i < 6; i++) lines.push(castLine())] loop. *)
Fixpoint cast_lines (n : nat) (lines : list Line) : M (list Line) :=
  match n with
  | O => ret lines
  | S n' =>
      do li <- castLine;
      cast_lines n' (lines ++ [li])
  end.

Definition castHexagram : M Cast.t :=
  do lines <- cast_lines 6 [];
  lift (cast_of_lines lines).

(* ------------------------------------------------------------------ *)
(** ** Formatting *)

(** [String(n)] for an integer. *)
Definition js_String (z : Z) : string := NilZero.string_of_int (Z.to_int z).

(** [s.padStart(2, "0")] *)
Definition padStart2 (s : string) : string :=
  match String.length s with
  | 0%nat => ("00" ++ s)%string
  | 1%nat => ("0" ++ s)%string
  | _ => s
  end.

Definition format_date (d : LocalDate) : string :=
  (js_String (getFullYear d) ++ "-" ++
   padStart2 (js_String (getMonth d + 1)) ++ "-" ++
   padStart2 (js_String (getDate d)))%string.

Definition today : M string :=
  fun env w => (Ok (format_date (now env)), w).

(** The [do ... while (byte >= 250)] loop; [budget] bounds the number of
    draws the model follows. *)
Fixpoint getRandomStyle (budget : nat) : M (option Style) :=
  match budget with
  | O => lift Spin
  | S budget' =>
      do bytes <- randomBytes 1;
      let byte := nth 0 bytes 0 in
      if byte >=? 250 then getRandomStyle budget'
      else ret (index STYLES (byte mod 5))
  end.

(** [GUA[v - 1]] followed by a property read: throws unless [v] is a number
    with an entry. [null - 1] is -1 and [undefined - 1] is NaN; neither has
    an entry. *)
Definition gua_entry (v : jsnum) : outcome (Z * Hexagram) :=
  match v with
  | JNum k => let! g := deref GUA (k - 1) in Ok (k, g)
  | _ => Throw
  end.

Definition formatReading (cast : Cast.t) (style : Style) : outcome Text :=
  let! g := gua_entry (Cast.primary cast) in
  if negb (jsnum_eqb (Cast.becoming cast) JNull) then
    let! t := gua_entry (Cast.becoming cast) in
    Ok (TReading (fst g) style (Some (fst t, Cast.changingPositions cast)))
  else
    Ok (TReading (fst g) style None).

(** [cast[type]], or [cast.becoming] for the becoming type. *)
Definition cast_field (cast : Cast.t) (ty : DerivedType) : jsnum :=
  match ty with
  | Dnuclear => Cast.nuclear cast
  | Dshadow => Cast.shadow cast
  | Dmirror => Cast.mirror cast
  | Dbecoming => Cast.becoming cast
  end.

Definition is_mirror (ty : DerivedType) : bool :=
  match ty with
  | Dmirror => true
  | _ => false
  end.

Definition formatDerived (budget : nat) (cast : Cast.t) (ty : DerivedType)
  : M Text :=
  if is_mirror ty && jsnum_eqb (Cast.mirror cast) (Cast.primary cast) then
    do bytes <- randomBytes 1;
    let zh := nth 0 bytes 0 <? 128 in
    do g <- lift (gua_entry (Cast.primary cast));
    do style <- getRandomStyle budget;
    ret (TSelfMirror zh (fst g) style)
  else
    let kwNum := cast_field cast ty in
    if jsnum_eqb kwNum JNull then ret TEmpty
    else
      do g <- lift (gua_entry kwNum);
      do style <- getRandomStyle budget;
      ret (TDerived ty (fst g) style).

(* ------------------------------------------------------------------ *)
(** ** Cache and history *)

Definition appendToHistory (cache : DailyCache.t) : M unit :=
  fun _ w =>
    let entry := HistoryEntry.mk (DailyCache.date cache) (DailyCache.cast cache) in
    (Ok tt,
     mkWorld (cache_file w) (history_file w ++ [entry]) (stdout w)
             (cache_writes w) (drawn w) (exit_code w)).

(* ------------------------------------------------------------------ *)
(** ** Main *)

(** The decimal literals of the reveal chain are doubles; each is given as
    the exact rational its nearest double denotes. [byte / 256] is exact. *)
Definition lit_0_04 : Q := 5764607523034235 # (2 ^ 57).
Definition lit_0_08 : Q := 5764607523034235 # (2 ^ 56).
Definition lit_0_12 : Q := 1080863910568919 # (2 ^ 53).
Definition lit_0_16 : Q := 5764607523034235 # (2 ^ 55).
Definition lit_0_2 : Q := 3602879701896397 # (2 ^ 54).
Definition lit_0_225 : Q := 8106479329266893 # (2 ^ 55).
Definition lit_0_25 : Q := 1 # 4.
Definition lit_0_275 : Q := 2476979795053773 # (2 ^ 53).
Definition lit_0_3 : Q := 5404319552844595 # (2 ^ 54).

Definition Qltb (a b : Q) : bool :=
  Qnum a * Zpos (Qden b) <? Qnum b * Zpos (Qden a).

Inductive Branch : Type :=
| BReading (s : Style)
| BDerived (ty : DerivedType)
| BSilent.

(** The [if (r < 0.04) ... else if (r < 0.3)] chain, as the branch taken. *)
Definition reveal_branch (byte : Z) : Branch :=
  let r := byte # 256 in
  if Qltb r lit_0_04 then BReading dx
  else if Qltb r lit_0_08 then BReading tu
  else if Qltb r lit_0_12 then BReading en
  else if Qltb r lit_0_16 then BReading te
  else if Qltb r lit_0_2 then BReading w
  else if Qltb r lit_0_225 then BDerived Dnuclear
  else if Qltb r lit_0_25 then BDerived Dshadow
  else if Qltb r lit_0_275 then BDerived Dmirror
  else if Qltb r lit_0_3 then BDerived Dbecoming
  else BSilent.

(** The [else] branch of [if (!cache.shown)]: the value left in [out]
    ([None] is [null]). *)
Definition reveal (budget : nat) (cast : Cast.t) : M (option Text) :=
  do bytes <- randomBytes 1;
  match reveal_branch (nth 0 bytes 0) with
  | BReading s =>
      do out <- lift (formatReading cast s);
      ret (Some out)
  | BDerived Dbecoming =>
      do t <- formatDerived budget cast Dbecoming;
      ret (if text_truthy t then Some t else None)
  | BDerived ty =>
      do out <- formatDerived budget cast ty;
      ret (Some out)
  | BSilent => ret None
  end.

Definition string_truthy (s : string) : bool := negb (s =? "")%string.

(** The body of the [try] block. The first [match] is the
    [if (!cache || cache.date !== date)] statement: [None] is the [null] of
    a missing file. *)
Definition main_try (budget : nat) : M unit :=
  do _ <- read_stdin;
  do loaded <- read_cache;
  do date <- today;
  do cache <-
    (match loaded with
     | None =>
         do cast <- castHexagram;
         ret (DailyCache.mk date cast false)
     | Some old =>
         if negb (DailyCache.date old =? date)%string then
           do _ <- (if string_truthy (DailyCache.date old)
                       && negb (DailyCache.date old =? date)%string
                    then appendToHistory old
                    else ret tt);
           do cast <- castHexagram;
           ret (DailyCache.mk date cast false)
         else ret old
     end);
  do '(out, cache') <-
    (if negb (DailyCache.shown cache) then
       do out <- lift (formatReading (DailyCache.cast cache) dx);
       ret (Some out,
            DailyCache.mk (DailyCache.date cache) (DailyCache.cast cache) true)
     else
       do out <- reveal budget (DailyCache.cast cache);
       ret (out, cache));
  do _ <- write_cache cache';
  do _ <- (match out with
           | Some t => if text_truthy t then console_log t else ret tt
           | None => ret tt
           end);
  process_exit 0.

(** [main]: the [catch] clause turns a throw into [process.exit(0)]; a run
    whose budget is used up has not exited. *)
Definition main (budget : nat) (env : Env) (w : World) : World :=
  match main_try budget env w with
  | (Ok _, w') => w'
  | (Throw, w') => set_exit 0 w'
  | (Spin, w') => w'
  end.

(* ------------------------------------------------------------------ *)
(** ** Vocabulary of the properties *)

(** An identifier of the King Wen sequence. *)
Definition valid_id (v : jsnum) : bool :=
  match v with
  | JNum k => (1 <=? k) && (k <=? 64)
  | _ => false
  end.

(** Self-mirroring: the mirror identifier equals the identifier itself.
    Locked pair: the mirror identifier equals the shadow identifier. *)
Definition self_mirroring (x : Z) : bool := jsnum_eqb (mirror_id x) (JNum x).
Definition locked (x : Z) : bool := jsnum_eqb (mirror_id x) (shadow_id x).

(** The pairs (x, mirror x) among the locked identifiers, each listed once. *)
Definition locked_pairs : list (Z * jsnum) :=
  filter (fun p => match snd p with JNum y => fst p <? y | _ => false end)
         (map (fun x => (x, mirror_id x)) (filter locked identifiers)).

(** The four lines a toss of three coins can give. *)
Definition old_yin : Line := mkLine 6 false true.
Definition young_yang : Line := mkLine 7 true false.
Definition young_yin : Line := mkLine 8 false false.
Definition old_yang : Line := mkLine 9 true true.
Definition four_lines : list Line := [old_yin; young_yang; young_yin; old_yang].

Definition is_nil {A} (xs : list A) : bool :=
  match xs with
  | [] => true
  | _ => false
  end.

(** The invariant of a Cast: the three derived identifiers and the primary
    are identifiers; becoming is null exactly when no position is changing,
    which is exactly when no line is changing; a becoming that is present
    is an identifier. *)
Definition cast_wf (c : Cast.t) : bool :=
  valid_id (Cast.primary c) && valid_id (Cast.nuclear c)
  && valid_id (Cast.shadow c) && valid_id (Cast.mirror c)
  && Bool.eqb (negb (jsnum_eqb (Cast.becoming c) JNull))
              (negb (is_nil (Cast.changingPositions c)))
  && Bool.eqb (negb (is_nil (Cast.changingPositions c)))
              (existsb isChanging (Cast.lines c))
  && (jsnum_eqb (Cast.becoming c) JNull || valid_id (Cast.becoming c)).

(** The line [castLine] gives when the cursor is at [p], and the [n] lines
    of consecutive calls. *)
Definition drawn_line (env : Env) (p : nat) : outcome Line :=
  line_of_bytes (bytes_at env p 3).

Definition line_at (env : Env) (p : nat) : Line :=
  match drawn_line env p with
  | Ok li => li
  | _ => young_yin
  end.

Fixpoint lines_at (env : Env) (p n : nat) : list Line :=
  match n with
  | O => []
  | S n' => line_at env p :: lines_at env (p + 3) n'
  end.

(** Counting over the byte values 0..255. *)
Definition byte_values : list Z := Zrange 0 256.

Definition sumZ (f : Z -> Z) (xs : list Z) : Z :=
  fold_right (fun a acc => f a + acc) 0 xs.

Definition toss_value (a b c : Z) : Z :=
  match line_of_bytes [a; b; c] with
  | Ok li => value li
  | _ => 0
  end.

Definition count_triples (v : Z) (range : list Z) : Z :=
  sumZ (fun a =>
    sumZ (fun b =>
      sumZ (fun c => if toss_value a b c =? v then 1 else 0) range) range) range.

Definition count_parity (p : Z) : Z :=
  sumZ (fun a => if js_and a 1 =? p then 1 else 0) byte_values.

(** The bytes that select a branch of the reveal chain. *)
Definition Branch_eqb (a b : Branch) : bool :=
  match a, b with
  | BReading dx, BReading dx | BReading tu, BReading tu
  | BReading en, BReading en | BReading te, BReading te
  | BReading w, BReading w => true
  | BDerived Dnuclear, BDerived Dnuclear | BDerived Dshadow, BDerived Dshadow
  | BDerived Dmirror, BDerived Dmirror
  | BDerived Dbecoming, BDerived Dbecoming => true
  | BSilent, BSilent => true
  | _, _ => false
  end.

Definition band (br : Branch) : list Z :=
  filter (fun b => Branch_eqb (reveal_branch b) br) byte_values.

Definition band_size (br : Branch) : Z := Z.of_nat (List.length (band br)).

(** Probability of a branch when the selection byte is uniform on 0..255. *)
Definition band_probability (br : Branch) : Q := band_size br # 256.

Definition output_bands : list Branch :=
  map BReading STYLES ++ map BDerived [Dnuclear; Dshadow; Dmirror; Dbecoming].

Definition output_probability : Q :=
  fold_right (fun br acc => band_size br + acc) 0 output_bands # 256.

(** The same chain with the decimal fractions taken exactly. *)
Definition reveal_branch_exact (byte : Z) : Branch :=
  let r := byte # 256 in
  if Qltb r (4 # 100) then BReading dx
  else if Qltb r (8 # 100) then BReading tu
  else if Qltb r (12 # 100) then BReading en
  else if Qltb r (16 # 100) then BReading te
  else if Qltb r (20 # 100) then BReading w
  else if Qltb r (225 # 1000) then BDerived Dnuclear
  else if Qltb r (25 # 100) then BDerived Dshadow
  else if Qltb r (275 # 1000) then BDerived Dmirror
  else if Qltb r (30 # 100) then BDerived Dbecoming
  else BSilent.

(** Decidable forms of the table properties, one index at a time. *)
Definition table_entry_ok (b : Z) : bool := valid_id (kw_at b).

Definition table_distinct_ok (b1 : Z) : bool :=
  forallb (fun b2 => negb (jsnum_eqb (kw_at b1) (kw_at b2)) || (b1 =? b2))
          (Zrange 0 64).

Definition table_hit_ok (kw : Z) : bool :=
  existsb (fun b => jsnum_eqb (kw_at b) (JNum kw)) (Zrange 0 64).

Definition pattern_roundtrip_ok (kw : Z) : bool :=
  match index GUA (kw - 1) with
  | Some g =>
      match linesToBinary (lines_of_pattern (l g)), verify_index g with
      | Ok b, Some i => (b =? i) && jsnum_eqb (kw_at b) (JNum kw)
      | _, _ => false
      end
  | None => false
  end.

Definition binary_roundtrip_ok (b : Z) : bool :=
  match kw_at b with
  | JNum kw =>
      match index GUA (kw - 1) with
      | Some g =>
          match linesToBinary (lines_of_pattern (l g)) with
          | Ok b' => b' =? b
          | _ => false
          end
      | None => false
      end
  | _ => false
  end.

Definition mirror_involutive_ok (x : Z) : bool :=
  match mirror_id x with
  | JNum y => valid_id (JNum y) && jsnum_eqb (mirror_id y) (JNum x)
  | _ => false
  end.

Definition locked_reciprocal_ok (x : Z) : bool :=
  negb (locked x) ||
  match mirror_id x with
  | JNum y =>
      jsnum_eqb (shadow_id x) (JNum y) && negb (y =? x) && valid_id (JNum y)
      && locked y && jsnum_eqb (mirror_id y) (JNum x)
      && jsnum_eqb (shadow_id y) (JNum x)
  | _ => false
  end.

(** Two worlds with the same files, output and exit status; they may
    differ in how much entropy was drawn. *)
Definition same_files (a b : World) : Prop :=
  cache_file a = cache_file b /\ history_file a = history_file b /\
  stdout a = stdout b /\ cache_writes a = cache_writes b /\
  exit_code a = exit_code b.

(** A computation that leaves the files, the output and the exit status
    alone. *)
Definition frames {A} (m : M A) : Prop :=
  forall env w, same_files w (snd (m env w)).

(** [t] is the primary reading of cast [c] in style [s]: the entry of the
    primary identifier, followed by the becoming entry and the changing
    positions when the cast has a becoming identifier. *)
Definition reading_of (c : Cast.t) (s : Style) (t : Text) : Prop :=
  exists k, Cast.primary c = JNum k /\
    ((Cast.becoming c = JNull /\ t = TReading k s None) \/
     (exists b, Cast.becoming c = JNum b /\
                t = TReading k s (Some (b, Cast.changingPositions c)))).

Definition gua_defined (k : Z) : bool :=
  match deref GUA (k - 1) with
  | Ok _ => true
  | _ => false
  end.

(** What an invocation prints when the reveal chain takes branch [br] on
    cast [c]: nothing on the silent branch, the primary reading in the
    branch's style on a commentary branch, and on a derived branch either
    nothing or one derived line of that type (the self-mirroring label only
    for the mirror type). *)
Definition derived_text (ty : DerivedType) (t : Text) : Prop :=
  (exists k s, t = TDerived ty k (Some s)) \/
  (ty = Dmirror /\ exists zh k s, t = TSelfMirror zh k (Some s)).

Definition selected (br : Branch) (c : Cast.t) (out : list Text) : Prop :=
  match br with
  | BSilent => out = []
  | BReading s => exists t, reading_of c s t /\ out = [t]
  | BDerived ty => out = [] \/ exists t, out = [t] /\ derived_text ty t
  end.

(** ** Sample inputs *)

Definition sample_byte (n : nat) : Byte.byte :=
  match Byte.of_N (N.of_nat (n * 37 + 5) mod 256) with
  | Some b => b
  | None => Byte.x00
  end.

Definition sample_env : Env := mkEnv sample_byte (mkDate 2026 10 3) true.

Definition sample_cast : Cast.t :=
  Cast.mk (lines_of_pattern [1; 0; 0; 0; 1; 0]) (JNum 3) JNull []
          (JNum 23) (JNum 50) (JNum 4).

Definition world_with (f : FileContent) : World := mkWorld f [] [] 0 0 None.

Definition yesterday_record : DailyCache.t :=
  DailyCache.mk "2026-11-02" sample_cast true.

Definition today_record : DailyCache.t :=
  DailyCache.mk "2026-11-03" sample_cast true.

(* ------------------------------------------------------------------ *)
(** ** Further vocabulary *)

Definition nuclear_id : Z -> jsnum := on_id nuclear.

(** A derived identifier of a derived identifier. *)
Definition then_id (f g : Z -> jsnum) (x : Z) : jsnum :=
  match f x with
  | JNum y => g y
  | _ => JUndefined
  end.

Definition invert (li : Line) : Line :=
  mkLine (value li) (negb (isYang li)) (isChanging li).

Definition shadow_involutive_ok (x : Z) : bool :=
  match shadow_id x with
  | JNum y =>
      valid_id (JNum y) && negb (y =? x) && jsnum_eqb (shadow_id y) (JNum x)
  | _ => false
  end.

Definition commute_ok (x : Z) : bool :=
  valid_id (then_id mirror_id shadow_id x)
  && jsnum_eqb (then_id mirror_id shadow_id x) (then_id shadow_id mirror_id x).

(** The nuclear identifier of each of the 64 primaries, in order; the
    identifiers that occur in it, and the primaries that share a given
    one. *)
Definition nuclear_table : list jsnum := map nuclear_id identifiers.

Definition image_of (table : list jsnum) : list Z :=
  filter (fun y => existsb (jsnum_eqb (JNum y)) table) identifiers.

Definition fibre_of (table : list jsnum) (y : Z) : list Z :=
  map fst (filter (fun xv => jsnum_eqb (snd xv) (JNum y))
                  (combine identifiers table)).

Definition nuclear_image : list Z := image_of nuclear_table.

Definition nuclear_fibre (y : Z) : list Z := fibre_of nuclear_table y.

Definition nuclear_twice_ok (x : Z) : bool :=
  existsb (fun y => jsnum_eqb (then_id nuclear_id nuclear_id x) (JNum y))
          [1; 2; 63; 64].

Definition lines_of_all_yang : list Line := lines_of_pattern [1; 1; 1; 1; 1; 1].

(** The byte values [getRandomStyle] accepts for a style, and those it
    rejects. *)
Definition Style_eqb (a b : Style) : bool :=
  match a, b with
  | dx, dx | tu, tu | en, en | te, te | w, w => true
  | _, _ => false
  end.

Definition style_band (s : Style) : list Z :=
  filter (fun b => negb (b >=? 250) &&
                   match index STYLES (b mod 5) with
                   | Some s' => Style_eqb s' s
                   | None => false
                   end) byte_values.

Definition rejected_bytes : list Z := filter (fun b => b >=? 250) byte_values.

(** A calendar date as [Date] reports it: month 0..11, day 1..31. *)
Definition valid_date (d : LocalDate) : bool :=
  (0 <=? getMonth d) && (getMonth d <=? 11)
  && (1 <=? getDate d) && (getDate d <=? 31).

Definition pad2 (n : Z) : string := padStart2 (js_String n).

Definition pad2_length_ok (n : Z) : bool :=
  Nat.eqb (String.length (pad2 n)) 2.

Definition pad2_distinct_ok (n : Z) : bool :=
  forallb (fun m => negb (pad2 n =? pad2 m)%string || (n =? m)) (Zrange 0 100).

(** The history entry [appendToHistory] writes for a record. *)
Definition entry_of (r : DailyCache.t) : HistoryEntry.t :=
  HistoryEntry.mk (DailyCache.date r) (DailyCache.cast r).

(** A store on which a further invocation of the same day changes nothing:
    unparseable, or today's record either already shown or with a cast
    whose reading cannot be formatted. *)
Definition settled (today : string) (f : FileContent) : Prop :=
  f = Unparseable \/
  exists r, f = Stored r /\ DailyCache.date r = today /\
            (DailyCache.shown r = true \/
             formatReading (DailyCache.cast r) dx = Throw).

(** A second entropy source and a self-mirroring record. *)
Definition constant_env (b : Byte.byte) : Env :=
  mkEnv (fun _ => b) (mkDate 2026 10 3) true.

Definition qian_cast : Cast.t :=
  Cast.mk lines_of_all_yang (JNum 1) JNull [] (JNum 1) (JNum 2) (JNum 1).

Definition qian_record : DailyCache.t :=
  DailyCache.mk "2026-11-03" qian_cast true.

Definition blank_date_record : DailyCache.t :=
  DailyCache.mk "" sample_cast true.

(** The lines [castHexagram] encodes for the becoming hexagram, and the
    bit mask of a list of 1-based positions. *)
Definition becoming_lines (lines : list Line) : list Line :=
  map (fun li =>
         mkLine (value li)
                (if isChanging li then negb (isYang li) else isYang li)
                (isChanging li)) lines.

Definition mask (positions : list Z) : Z :=
  fold_right (fun p acc => Z.lor (Z.shiftl 1 (p - 1)) acc) 0 positions.

(** The 1-based positions of the changing lines among the first six. *)
Definition changing_positions_of (lines : list Line) : list Z :=
  filter (fun p => match index lines (p - 1) with
                   | Some li => isChanging li
                   | None => false
                   end) (Zrange 1 6).

(** A check over all lists of [n] booleans. *)
Fixpoint all_bools (n : nat) (p : list bool -> bool) : bool :=
  match n with
  | O => p []
  | S n' =>
      all_bools n' (fun l => p (true :: l))
      && all_bools n' (fun l => p (false :: l))
  end.

Definition lines_of_bits (ys cs : list bool) : list Line :=
  map (fun yc => mkLine 0 (fst yc) (snd yc)) (combine ys cs).

Definition flip_ok (l : list bool) : bool :=
  let ls := lines_of_bits (firstn 6 l) (skipn 6 l) in
  (spec_encode (becoming_lines ls)
   =? Z.lxor (spec_encode ls) (mask (push_changing 0 ls)))
  && (negb (existsb isChanging ls)
      || negb (spec_encode (becoming_lines ls) =? spec_encode ls)).

(* ------------------------------------------------------------------ *)
(** ** The cast the entropy fixes *)

(** The casting rule as the specification words it, over the byte stream
    alone: a coin is heads (3) when the byte's low bit is set and tails (2)
    otherwise; a line is the sum of three coins; the cast drawn at position
    [p] takes its six lines from the 18 bytes [p .. p+17], three per line,
    bottom line first; every identifier is the table entry of the code of
    the lines it is derived from. *)
Definition spec_coin (byte : Z) : Z := if Z.odd byte then 3 else 2.

Definition spec_line (sum : Z) : Line :=
  mkLine sum ((sum =? 7) || (sum =? 9)) ((sum =? 6) || (sum =? 9)).

Definition spec_line_at (env : Env) (p : nat) : Line :=
  spec_line (spec_coin (byte_to_Z (randomByte env p))
             + spec_coin (byte_to_Z (randomByte env (p + 1)))
             + spec_coin (byte_to_Z (randomByte env (p + 2)))).

Definition spec_lines_at (env : Env) (p : nat) : list Line :=
  map (fun i => spec_line_at env (p + 3 * i)) (seq 0 6).

Definition spec_id (lines : list Line) : jsnum :=
  JNum (spec_toCanonical (spec_encode lines)).

Definition spec_cast_of (lines : list Line) : Cast.t :=
  let positions := changing_positions_of lines in
  Cast.mk lines
    (spec_id lines)
    (if is_nil positions then JNull
     else JNum (spec_toCanonical (Z.lxor (spec_encode lines) (mask positions))))
    positions
    (JNum (spec_nuclear_at [2; 3; 4; 3; 4; 5]%nat lines))
    (spec_id (map invert lines))
    (spec_id (rev lines)).

Definition spec_cast_at (env : Env) (p : nat) : Cast.t :=
  spec_cast_of (spec_lines_at env p).

Definition canonical_ok (b : Z) : bool :=
  jsnum_eqb (kw_at b) (JNum (spec_toCanonical b)).

(** An environment whose payload does not parse. *)
Definition sample_env_no_json : Env :=
  mkEnv sample_byte (mkDate 2026 10 3) false.


(* ================================================================== *)
(** * Properties *)

(** ** Basic facts *)

Lemma jsnum_eqb_eq a b : jsnum_eqb a b = true <-> a = b.
Proof.
  destruct a, b; simpl; split; intro H; try discriminate; try reflexivity.
  - apply Z.eqb_eq in H. now subst.
  - inversion H. apply Z.eqb_refl.
Qed.

Lemma Zrange_In lo n x :
  In x (Zrange lo n) <-> lo <= x < lo + Z.of_nat n.
Proof.
  unfold Zrange. rewrite in_map_iff. split.
  - intros [k [<- Hk]]. apply in_seq in Hk. lia.
  - intros Hx. exists (Z.to_nat (x - lo)). split; [lia|].
    apply in_seq. lia.
Qed.

Lemma forallb_Zrange (p : Z -> bool) lo n :
  forallb p (Zrange lo n) = true ->
  forall x, lo <= x < lo + Z.of_nat n -> p x = true.
Proof.
  intros H x Hx. rewrite forallb_forall in H. apply H, Zrange_In, Hx.
Qed.

Lemma identifiers_In x : In x identifiers <-> 1 <= x <= 64.
Proof. unfold identifiers. rewrite Zrange_In. simpl. lia. Qed.

Lemma valid_id_spec v :
  valid_id v = true <-> exists k, v = JNum k /\ 1 <= k <= 64.
Proof.
  destruct v; simpl; split; try discriminate; try (intros [k [E _]]; discriminate).
  - intro H. exists z. split; [reflexivity | lia].
  - intros [k [E Hk]]. inversion E. lia.
Qed.

(* ------------------------------------------------------------------ *)
(** ** Nuclear *)

Ltac split_six lines H :=
  destruct lines as [|[v0 y0 c0] [|[v1 y1 c1] [|[v2 y2 c2] [|[v3 y3 c3]
    [|[v4 y4 c4] [|[v5 y5 c5] [|? ?]]]]]]]; try discriminate H.

Ltac closed_bounds := vm_compute; intuition congruence.

(** C1 (amended). For every sequence of 6 lines, [nuclear] encodes the
    sequence made of the original's 1-indexed positions 2,3,4,3,4,5
    (0-indexed lines 1,2,3,2,3,4): the encoding succeeds, is the 6-bit value
    of that sequence, and the result is its entry in the canonical table. *)
Theorem nuclear_positions_2_3_4_3_4_5 (lines : list Line) :
  List.length lines = 6%nat ->
  let picked := spec_pick [2; 3; 4; 3; 4; 5]%nat lines in
  linesToBinary picked = Ok (spec_encode picked) /\
  0 <= spec_encode picked < 64 /\
  nuclear lines = Ok (JNum (spec_nuclear_at [2; 3; 4; 3; 4; 5]%nat lines)) /\
  1 <= spec_nuclear_at [2; 3; 4; 3; 4; 5]%nat lines <= 64.
Proof.
  intros H. split_six lines H.
  destruct y1, y2, y3, y4; closed_bounds.
Qed.

Lemma nuclear_positions_witness :
  nuclear (lines_of_pattern [1; 0; 0; 0; 1; 0]) = Ok (JNum 23).
Proof.
  destruct (nuclear_positions_2_3_4_3_4_5 (lines_of_pattern [1; 0; 0; 0; 1; 0])
              eq_refl) as [_ [_ [H _]]].
  exact H.
Defined.

(** C1 as stated fails on the lines [1,0,0,0,1,0] of the specification's
    own test: positions 2,3,4,2,3,4 give identifier 2, the code gives 23. *)
Lemma nuclear_not_positions_2_3_4_2_3_4 :
  let lines := lines_of_pattern [1; 0; 0; 0; 1; 0] in
  nuclear lines = Ok (JNum 23) /\
  spec_nuclear_at [2; 3; 4; 2; 3; 4]%nat lines = 2 /\
  nuclear lines <> Ok (JNum (spec_nuclear_at [2; 3; 4; 2; 3; 4]%nat lines)).
Proof. vm_compute. repeat split; congruence. Qed.

(* ------------------------------------------------------------------ *)
(** ** The canonical table *)

Ltac range_check p lo n x Hx H :=
  assert (H : p x = true)
    by (apply (forallb_Zrange p lo n); [vm_compute; reflexivity | simpl; lia]).

(** C2. [BINARY_TO_KW] has 64 entries, maps the codes 0..63 one-to-one onto
    the identifiers 1..64, and round-trips with the line patterns of [GUA]:
    the pattern stored for identifier kw encodes to a code whose entry is
    kw, and the pattern stored for the entry of code b encodes back to b.
    [verifyBinaryTable] reports no error. *)
Theorem BINARY_TO_KW_bijection :
  List.length BINARY_TO_KW = 64%nat /\
  (forall b, 0 <= b < 64 -> exists kw, kw_at b = JNum kw /\ 1 <= kw <= 64) /\
  (forall b1 b2, 0 <= b1 < 64 -> 0 <= b2 < 64 ->
                 kw_at b1 = kw_at b2 -> b1 = b2) /\
  (forall kw, 1 <= kw <= 64 -> exists b, 0 <= b < 64 /\ kw_at b = JNum kw) /\
  (forall kw, 1 <= kw <= 64 ->
     exists g b, index GUA (kw - 1) = Some g /\
                 linesToBinary (lines_of_pattern (l g)) = Ok b /\
                 verify_index g = Some b /\
                 kw_at b = JNum kw) /\
  (forall b, 0 <= b < 64 ->
     exists kw g, kw_at b = JNum kw /\
                  index GUA (kw - 1) = Some g /\
                  linesToBinary (lines_of_pattern (l g)) = Ok b) /\
  verifyBinaryTable = Ok [].
Proof.
  split; [reflexivity|].
  split.
  { intros b Hb. range_check table_entry_ok 0 64%nat b Hb H.
    apply valid_id_spec, H. }
  split.
  { intros b1 b2 H1 H2 E. range_check table_distinct_ok 0 64%nat b1 H1 H.
    unfold table_distinct_ok in H.
    pose proof (forallb_Zrange _ 0 64%nat H b2) as H'. simpl in H'.
    specialize (H' H2). apply orb_true_iff in H'. destruct H' as [H'|H'].
    - apply negb_true_iff in H'.
      assert (jsnum_eqb (kw_at b1) (kw_at b2) = true) by (apply jsnum_eqb_eq, E).
      congruence.
    - apply Z.eqb_eq, H'. }
  split.
  { intros kw Hk. range_check table_hit_ok 1 64%nat kw Hk H.
    unfold table_hit_ok in H. apply existsb_exists in H.
    destruct H as [b [Hin Hb]]. exists b. split.
    - apply Zrange_In in Hin. simpl in Hin. lia.
    - apply jsnum_eqb_eq, Hb. }
  split.
  { intros kw Hk. range_check pattern_roundtrip_ok 1 64%nat kw Hk H.
    unfold pattern_roundtrip_ok in H.
    destruct (index GUA (kw - 1)) as [g|] eqn:Eg; [|discriminate].
    destruct (linesToBinary (lines_of_pattern (l g))) as [b| |] eqn:Eb;
      try discriminate.
    destruct (verify_index g) as [i|] eqn:Ei; [|discriminate].
    apply andb_true_iff in H. destruct H as [Hbi Hkw].
    apply Z.eqb_eq in Hbi. subst i.
    exists g, b. split; [reflexivity|]. split; [exact Eb|].
    split; [exact Ei|]. apply jsnum_eqb_eq, Hkw. }
  split.
  { intros b Hb. range_check binary_roundtrip_ok 0 64%nat b Hb H.
    unfold binary_roundtrip_ok in H.
    destruct (kw_at b) as [| |kw] eqn:Ek; try discriminate.
    destruct (index GUA (kw - 1)) as [g|] eqn:Eg; [|discriminate].
    destruct (linesToBinary (lines_of_pattern (l g))) as [b'| |] eqn:Eb;
      try discriminate.
    apply Z.eqb_eq in H. subst b'.
    exists kw, g. split; [reflexivity|]. split; [exact Eg|exact Eb]. }
  vm_compute. reflexivity.
Qed.

Lemma BINARY_TO_KW_bijection_witness :
  exists g b, index GUA (3 - 1) = Some g /\
              linesToBinary (lines_of_pattern (l g)) = Ok b /\
              verify_index g = Some b /\
              kw_at b = JNum 3.
Proof.
  destruct BINARY_TO_KW_bijection as [_ [_ [_ [_ [H _]]]]].
  apply (H 3). lia.
Defined.

(* ------------------------------------------------------------------ *)
(** ** Mirror and shadow on identifiers *)

(** C4. Mirror is an involution on the 64 identifiers, and exactly 8 of
    them are their own mirror. On the lines of any cast, the mirror of the
    mirror identifier is the primary identifier. *)
Theorem mirror_involution :
  (forall x, 1 <= x <= 64 ->
     exists y, mirror_id x = JNum y /\ 1 <= y <= 64 /\ mirror_id y = JNum x) /\
  filter self_mirroring identifiers = [1; 2; 27; 28; 29; 30; 61; 62] /\
  List.length (filter self_mirroring identifiers) = 8%nat /\
  (forall lines, List.length lines = 6%nat ->
     exists b y, linesToBinary lines = Ok b /\ mirror lines = Ok (JNum y) /\
                 mirror_id y = kw_at b).
Proof.
  split.
  { intros x Hx. range_check mirror_involutive_ok 1 64%nat x Hx H.
    unfold mirror_involutive_ok in H.
    destruct (mirror_id x) as [| |y] eqn:Ey; try discriminate.
    apply andb_true_iff in H. destruct H as [Hv Hm].
    exists y. split; [reflexivity|]. split.
    - simpl in Hv. lia.
    - apply jsnum_eqb_eq, Hm. }
  split; [vm_compute; reflexivity|].
  split; [vm_compute; reflexivity|].
  intros lines H. split_six lines H.
  destruct y0, y1, y2, y3, y4, y5;
    eexists; eexists;
    (split; [vm_compute; reflexivity|]);
    (split; [vm_compute; reflexivity|]);
    vm_compute; reflexivity.
Qed.

Lemma mirror_involution_witness :
  exists y, mirror_id 3 = JNum y /\ 1 <= y <= 64 /\ mirror_id y = JNum 3.
Proof.
  destruct mirror_involution as [H _]. apply (H 3). lia.
Defined.

(** C3 (amended). Exactly 8 of the 64 identifiers have their mirror equal
    to their shadow: 11, 12, 17, 18, 53, 54, 63, 64. They form 4 reciprocal
    pairs: the common mirror and shadow of a locked identifier is another
    locked identifier, whose mirror and shadow lead back. *)
Theorem locked_identifiers :
  filter locked identifiers = [11; 12; 17; 18; 53; 54; 63; 64] /\
  List.length (filter locked identifiers) = 8%nat /\
  locked_pairs = [(11, JNum 12); (17, JNum 18); (53, JNum 54); (63, JNum 64)] /\
  List.length locked_pairs = 4%nat /\
  (forall x, 1 <= x <= 64 -> locked x = true ->
     exists y, mirror_id x = JNum y /\ shadow_id x = JNum y /\
               y <> x /\ 1 <= y <= 64 /\ locked y = true /\
               mirror_id y = JNum x /\ shadow_id y = JNum x).
Proof.
  split; [vm_compute; reflexivity|].
  split; [vm_compute; reflexivity|].
  split; [vm_compute; reflexivity|].
  split; [vm_compute; reflexivity|].
  intros x Hx Hl. range_check locked_reciprocal_ok 1 64%nat x Hx H.
  unfold locked_reciprocal_ok in H. rewrite Hl in H. simpl in H.
  destruct (mirror_id x) as [| |y] eqn:Ey; try discriminate.
  repeat (apply andb_true_iff in H; destruct H as [H ?]).
  exists y. repeat split;
    try (apply jsnum_eqb_eq; assumption); try assumption.
  - apply negb_true_iff, Z.eqb_neq in H4. exact H4.
  - simpl in H3. lia.
  - simpl in H3. lia.
Qed.

Lemma locked_identifiers_witness :
  exists y, mirror_id 11 = JNum y /\ shadow_id 11 = JNum y /\
            y <> 11 /\ 1 <= y <= 64 /\ locked y = true /\
            mirror_id y = JNum 11 /\ shadow_id y = JNum 11.
Proof.
  destruct locked_identifiers as [_ [_ [_ [_ H]]]].
  apply (H 11); [lia | vm_compute; reflexivity].
Defined.

(** C3 as stated fails: the identifiers whose mirror equals their shadow
    are 8, not 4, and their pairs are 4, not 2. *)
Lemma locked_count_is_not_4 :
  List.length (filter locked identifiers) <> 4%nat /\
  List.length locked_pairs <> 2%nat /\
  forallb locked [11; 12; 17; 18; 53] = true.
Proof. vm_compute. repeat split; congruence. Qed.

(* ------------------------------------------------------------------ *)
(** ** Casting one line *)

Lemma ToInt32_parity z : ToInt32 z mod 2 = z mod 2.
Proof.
  unfold ToInt32.
  rewrite (Z.mod_eq (z + 2 ^ 31) (2 ^ 32)) by lia.
  replace (z + 2 ^ 31 - 2 ^ 32 * ((z + 2 ^ 31) / 2 ^ 32) - 2 ^ 31)
    with (z + (- (2 ^ 31 * ((z + 2 ^ 31) / 2 ^ 32))) * 2) by lia.
  apply Z.mod_add. lia.
Qed.

Lemma js_and_1 z : js_and z 1 = z mod 2.
Proof.
  unfold js_and.
  change (ToInt32 1) with (Z.ones 1).
  rewrite Z.land_ones by lia.
  change (2 ^ 1) with 2.
  rewrite ToInt32_parity.
  assert (H : z mod 2 = 0 \/ z mod 2 = 1) by (pose proof (Z.mod_pos_bound z 2); lia).
  destruct H as [H|H]; rewrite H; reflexivity.
Qed.

Lemma js_and_1_cases z : js_and z 1 = 0 \/ js_and z 1 = 1.
Proof. rewrite js_and_1. pose proof (Z.mod_pos_bound z 2). lia. Qed.

Lemma line_of_bytes_toss bytes :
  exists li, line_of_bytes bytes = Ok li /\ In li four_lines.
Proof.
  unfold line_of_bytes.
  destruct (js_and_1_cases (nth 0 bytes 0)) as [E0|E0];
  destruct (js_and_1_cases (nth 1 bytes 0)) as [E1|E1];
  destruct (js_and_1_cases (nth 2 bytes 0)) as [E2|E2];
  rewrite E0, E1, E2; eexists; (split; [reflexivity|]);
  cbv [four_lines old_yin young_yang young_yin old_yang In]; simpl; tauto.
Qed.

Lemma toss_value_parity a b c :
  toss_value a b c = toss_value (a mod 2) (b mod 2) (c mod 2).
Proof.
  unfold toss_value, line_of_bytes. cbn [nth].
  rewrite !js_and_1, !Z.mod_mod by lia. reflexivity.
Qed.

Lemma drawn_line_ok env p : drawn_line env p = Ok (line_at env p).
Proof.
  unfold line_at.
  destruct (line_of_bytes_toss (bytes_at env p 3)) as [li [E _]].
  unfold drawn_line. rewrite E. reflexivity.
Qed.

Lemma line_at_toss env p : In (line_at env p) four_lines.
Proof.
  unfold line_at, drawn_line.
  destruct (line_of_bytes_toss (bytes_at env p 3)) as [li [E H]].
  rewrite E. exact H.
Qed.

Lemma castLine_run env w :
  castLine env w = (Ok (line_at env (drawn w)), advance 3 w).
Proof.
  unfold castLine, bind, randomBytes, lift.
  fold (drawn_line env (drawn w)). rewrite drawn_line_ok. reflexivity.
Qed.

Lemma byte_values_In (b : Byte.byte) : In (byte_to_Z b) byte_values.
Proof.
  apply Zrange_In. unfold byte_to_Z.
  pose proof (Byte.to_N_bounded b). simpl. lia.
Qed.

(* ------------------------------------------------------------------ *)
(** ** Counting tosses *)

Lemma sumZ_ext f g xs :
  (forall x, f x = g x) -> sumZ f xs = sumZ g xs.
Proof.
  intros H. induction xs as [|x xs IH]; simpl; [reflexivity|].
  rewrite H, IH. reflexivity.
Qed.

Lemma sumZ_map_arg f (h : Z -> Z) xs :
  sumZ (fun x => f (h x)) xs = sumZ f (map h xs).
Proof.
  induction xs as [|x xs IH]; simpl; [reflexivity|]. now rewrite IH.
Qed.

Lemma sumZ_alternating f n :
  sumZ f (flat_map (fun _ => [0; 1]) (seq 0 n)) = Z.of_nat n * (f 0 + f 1).
Proof.
  generalize 0%nat. induction n as [|n IH]; intros s.
  - reflexivity.
  - cbn [seq flat_map app sumZ fold_right].
    fold (sumZ f (flat_map (fun _ : nat => [0; 1]) (seq (S s) n))).
    rewrite IH. lia.
Qed.

Lemma sumZ_by_parity f :
  (forall a, f a = f (a mod 2)) ->
  sumZ f byte_values = 128 * f 0 + 128 * f 1.
Proof.
  intros H.
  rewrite (sumZ_ext f (fun x => f (x mod 2))) by exact H.
  rewrite (sumZ_map_arg f (fun x => x mod 2)).
  replace (map (fun x => x mod 2) byte_values)
    with (flat_map (fun _ : nat => [0; 1]) (seq 0 128))
    by (vm_compute; reflexivity).
  rewrite sumZ_alternating. lia.
Qed.

Lemma count_triples_by_parity v :
  count_triples v byte_values = 128 ^ 3 * count_triples v [0; 1].
Proof.
  unfold count_triples.
  assert (inner : forall a b,
    sumZ (fun c => if toss_value a b c =? v then 1 else 0) byte_values
    = 128 * (if toss_value a b 0 =? v then 1 else 0)
      + 128 * (if toss_value a b 1 =? v then 1 else 0)).
  { intros a b. apply (sumZ_by_parity (fun c => if toss_value a b c =? v then 1 else 0)).
    intros c. rewrite (toss_value_parity a b c), (toss_value_parity a b (c mod 2)).
    rewrite Z.mod_mod by lia. reflexivity. }
  assert (middle : forall a,
    sumZ (fun b => sumZ (fun c => if toss_value a b c =? v then 1 else 0)
                        byte_values) byte_values
    = 128 * (128 * (if toss_value a 0 0 =? v then 1 else 0)
             + 128 * (if toss_value a 0 1 =? v then 1 else 0))
      + 128 * (128 * (if toss_value a 1 0 =? v then 1 else 0)
               + 128 * (if toss_value a 1 1 =? v then 1 else 0))).
  { intros a.
    rewrite (sumZ_ext _ _ byte_values (inner a)).
    apply (sumZ_by_parity
             (fun b => 128 * (if toss_value a b 0 =? v then 1 else 0)
                       + 128 * (if toss_value a b 1 =? v then 1 else 0))).
    intros b.
    rewrite (toss_value_parity a b 0), (toss_value_parity a (b mod 2) 0).
    rewrite (toss_value_parity a b 1), (toss_value_parity a (b mod 2) 1).
    rewrite Z.mod_mod by lia. reflexivity. }
  rewrite (sumZ_ext _ _ byte_values middle).
  rewrite (sumZ_by_parity
    (fun a => 128 * (128 * (if toss_value a 0 0 =? v then 1 else 0)
                     + 128 * (if toss_value a 0 1 =? v then 1 else 0))
              + 128 * (128 * (if toss_value a 1 0 =? v then 1 else 0)
                       + 128 * (if toss_value a 1 1 =? v then 1 else 0)))).
  - cbn [sumZ fold_right]. lia.
  - intros a.
    rewrite (toss_value_parity a 0 0), (toss_value_parity (a mod 2) 0 0).
    rewrite (toss_value_parity a 0 1), (toss_value_parity (a mod 2) 0 1).
    rewrite (toss_value_parity a 1 0), (toss_value_parity (a mod 2) 1 0).
    rewrite (toss_value_parity a 1 1), (toss_value_parity (a mod 2) 1 1).
    rewrite Z.mod_mod by lia. reflexivity.
Qed.

(** C7. [castLine] always returns a line whose value is 6, 7, 8 or 9, with
    [isYang] and [isChanging] as the value dictates. The value depends only
    on the parities of the three bytes; each parity is carried by 128 of the
    256 byte values; over the 8 parity triples the values 6, 7, 8, 9 occur
    1, 3, 3, 1 times, and over all 256^3 byte triples 128^3 times as often:
    the probabilities are exactly 1/8, 3/8, 3/8, 1/8. *)
Theorem castLine_distribution :
  (forall env w, exists li,
      castLine env w = (Ok li, advance 3 w) /\
      In (value li) [6; 7; 8; 9] /\
      isYang li = ((value li =? 7) || (value li =? 9)) /\
      isChanging li = ((value li =? 6) || (value li =? 9)) /\
      value li = toss_value (byte_to_Z (randomByte env (drawn w)))
                            (byte_to_Z (randomByte env (drawn w + 1)))
                            (byte_to_Z (randomByte env (drawn w + 2)))) /\
  (forall a b c,
      toss_value a b c = toss_value (a mod 2) (b mod 2) (c mod 2)) /\
  (forall b : Byte.byte, In (byte_to_Z b) byte_values) /\
  map count_parity [0; 1] = [128; 128] /\
  map (fun v => count_triples v [0; 1]) [6; 7; 8; 9] = [1; 3; 3; 1] /\
  map (fun v => count_triples v byte_values) [6; 7; 8; 9]
    = [1 * 128 ^ 3; 3 * 128 ^ 3; 3 * 128 ^ 3; 1 * 128 ^ 3] /\
  8 * 128 ^ 3 = 256 ^ 3.
Proof.
  split.
  { intros env w. exists (line_at env (drawn w)).
    split; [apply castLine_run|].
    assert (E : toss_value (byte_to_Z (randomByte env (drawn w)))
                           (byte_to_Z (randomByte env (drawn w + 1)))
                           (byte_to_Z (randomByte env (drawn w + 2)))
                = value (line_at env (drawn w))).
    { unfold toss_value.
      pose proof (drawn_line_ok env (drawn w)) as D.
      unfold drawn_line, bytes_at in D. cbn [seq map] in D.
      rewrite Nat.add_0_r in D. rewrite D. reflexivity. }
    pose proof (line_at_toss env (drawn w)) as H.
    cbv [four_lines In] in H.
    destruct H as [H|[H|[H|[H|[]]]]]; rewrite E; rewrite <- H;
      cbv [old_yin young_yang young_yin old_yang value isYang isChanging In];
      simpl; tauto. }
  split; [exact toss_value_parity|].
  split; [exact byte_values_In|].
  split; [vm_compute; reflexivity|].
  split; [vm_compute; reflexivity|].
  split; [|reflexivity].
  cbn [map]. rewrite !count_triples_by_parity.
  vm_compute. reflexivity.
Qed.

(* ------------------------------------------------------------------ *)
(** ** Casting a hexagram *)

Lemma advance_advance a b w : advance a (advance b w) = advance (b + a) w.
Proof. unfold advance. simpl. f_equal. lia. Qed.

Lemma advance_0 w : advance 0 w = w.
Proof. destruct w. unfold advance. simpl. f_equal. apply Nat.add_0_r. Qed.

Lemma advance_same_files n w : same_files w (advance n w).
Proof. unfold same_files, advance. simpl. tauto. Qed.

Lemma cast_lines_run n :
  forall acc env w,
    cast_lines n acc env w
    = (Ok (acc ++ lines_at env (drawn w) n), advance (3 * n) w).
Proof.
  induction n as [|n IH]; intros acc env w.
  - cbn [cast_lines lines_at ret]. rewrite app_nil_r.
    change (3 * 0)%nat with 0%nat. rewrite advance_0. reflexivity.
  - cbn [cast_lines lines_at]. unfold bind. rewrite castLine_run.
    rewrite IH, advance_advance, <- app_assoc.
    replace (3 + 3 * n)%nat with (3 * S n)%nat by lia.
    reflexivity.
Qed.

Lemma castHexagram_run env w :
  castHexagram env w
  = (cast_of_lines (lines_at env (drawn w) 6), advance 18 w).
Proof.
  unfold castHexagram, bind. rewrite cast_lines_run. reflexivity.
Qed.

Lemma lines_at_length env n : forall p, List.length (lines_at env p n) = n.
Proof.
  induction n as [|n IH]; intros p; simpl; [reflexivity|]. now rewrite IH.
Qed.

Lemma lines_at_toss env n :
  forall p, Forall (fun li => In li four_lines) (lines_at env p n).
Proof.
  induction n as [|n IH]; intros p; simpl; constructor.
  - apply line_at_toss.
  - apply IH.
Qed.

(** Six lines always encode, to a code below 64. *)
Lemma linesToBinary_six ls :
  List.length ls = 6%nat ->
  exists b, linesToBinary ls = Ok b /\ 0 <= b < 64.
Proof.
  intros H. split_six ls H.
  destruct y0, y1, y2, y3, y4, y5;
    eexists; (split; [vm_compute; reflexivity | lia]).
Qed.

Lemma kw_at_valid b : 0 <= b < 64 -> valid_id (kw_at b) = true.
Proof.
  intros Hb. range_check table_entry_ok 0 64%nat b Hb H. exact H.
Qed.

Lemma valid_id_not_null v : valid_id v = true -> jsnum_eqb v JNull = false.
Proof. destruct v; simpl; congruence. Qed.

Lemma nuclear_six l0 l1 l2 l3 l4 l5 :
  nuclear [l0; l1; l2; l3; l4; l5]
  = (let! binary := linesToBinary [l1; l2; l3; l2; l3; l4] in
     Ok (kw_at binary)).
Proof. reflexivity. Qed.

Lemma derived_valid (f : list Line -> outcome jsnum) ls :
  f = nuclear \/ f = shadow \/ f = mirror ->
  List.length ls = 6%nat ->
  exists v, f ls = Ok v /\ valid_id v = true.
Proof.
  intros Hf Hlen.
  assert (K : forall ls', List.length ls' = 6%nat ->
            exists v, (let! binary := linesToBinary ls' in Ok (kw_at binary))
                      = Ok v /\ valid_id v = true).
  { intros ls' H'. destruct (linesToBinary_six ls' H') as [b [E Hb]].
    rewrite E. exists (kw_at b). split; [reflexivity | apply kw_at_valid, Hb]. }
  destruct Hf as [-> | [-> | ->]].
  - split_six ls Hlen. rewrite nuclear_six. apply K. reflexivity.
  - unfold shadow. apply K. now rewrite length_map.
  - unfold mirror. apply K. now rewrite length_rev.
Qed.

Lemma push_changing_nil ls :
  forall i, is_nil (push_changing i ls) = negb (existsb isChanging ls).
Proof.
  induction ls as [|li ls IH]; intros i; [reflexivity|].
  cbn [push_changing existsb]. destruct (isChanging li); [reflexivity|].
  cbn [app orb]. apply IH.
Qed.

(** Every cast made from six lines satisfies the invariant. *)
Lemma cast_of_lines_wf ls :
  List.length ls = 6%nat ->
  exists c, cast_of_lines ls = Ok c /\ cast_wf c = true /\ Cast.lines c = ls.
Proof.
  intros Hlen.
  destruct (linesToBinary_six ls Hlen) as [p [Ep Hp]].
  destruct (derived_valid nuclear ls (or_introl eq_refl) Hlen) as [n [En Hn]].
  destruct (derived_valid shadow ls (or_intror (or_introl eq_refl)) Hlen)
    as [s [Es Hs]].
  destruct (derived_valid mirror ls (or_intror (or_intror eq_refl)) Hlen)
    as [m [Em Hm]].
  pose proof (kw_at_valid p Hp) as Hkp.
  unfold cast_of_lines. rewrite Ep. cbn [obind].
  destruct (existsb isChanging ls) eqn:Hch.
  - destruct (linesToBinary_six
                (map (fun li => mkLine (value li)
                                  (if isChanging li then negb (isYang li)
                                   else isYang li)
                                  (isChanging li)) ls))
      as [b [Eb Hb]]; [now rewrite length_map|].
    pose proof (kw_at_valid b Hb) as Hkb.
    rewrite Eb. cbn [obind fst snd]. rewrite En, Es, Em. cbn [obind].
    eexists. split; [reflexivity|]. split; [|reflexivity].
    unfold cast_wf.
    cbn [Cast.primary Cast.nuclear Cast.shadow Cast.mirror Cast.becoming
         Cast.changingPositions Cast.lines].
    rewrite Hkp, Hn, Hs, Hm, Hkb, (valid_id_not_null _ Hkb),
      push_changing_nil, Hch.
    reflexivity.
  - cbn [obind fst snd]. rewrite En, Es, Em. cbn [obind].
    eexists. split; [reflexivity|]. split; [|reflexivity].
    unfold cast_wf.
    cbn [Cast.primary Cast.nuclear Cast.shadow Cast.mirror Cast.becoming
         Cast.changingPositions Cast.lines].
    rewrite Hkp, Hn, Hs, Hm, Hch. reflexivity.
Qed.

Lemma castHexagram_wf env w :
  exists c, castHexagram env w = (Ok c, advance 18 w) /\
            cast_wf c = true /\ Cast.lines c = lines_at env (drawn w) 6.
Proof.
  destruct (cast_of_lines_wf (lines_at env (drawn w) 6)
              (lines_at_length env 6 _))
    as [c [E [Hwf Hl]]].
  exists c. rewrite castHexagram_run, E. auto.
Qed.

Lemma is_nil_spec {A} (xs : list A) : is_nil xs = true <-> xs = [].
Proof. destruct xs; simpl; split; congruence. Qed.

Lemma cast_wf_spec c :
  cast_wf c = true ->
  valid_id (Cast.primary c) = true /\
  valid_id (Cast.nuclear c) = true /\
  valid_id (Cast.shadow c) = true /\
  valid_id (Cast.mirror c) = true /\
  (Cast.becoming c <> JNull <-> Cast.changingPositions c <> []) /\
  (Cast.changingPositions c <> [] <->
   exists li, In li (Cast.lines c) /\ isChanging li = true) /\
  (Cast.becoming c = JNull \/ valid_id (Cast.becoming c) = true).
Proof.
  unfold cast_wf. intros H.
  apply andb_true_iff in H. destruct H as [H Ho].
  apply andb_true_iff in H. destruct H as [H Hp].
  apply andb_true_iff in H. destruct H as [H Hb].
  apply andb_true_iff in H. destruct H as [H Hm].
  apply andb_true_iff in H. destruct H as [H Hs].
  apply andb_true_iff in H. destruct H as [Hpr Hn].
  apply Bool.eqb_prop in Hb. apply Bool.eqb_prop in Hp.
  apply orb_true_iff in Ho.
  repeat (split; [assumption|]).
  split; [|split].
  - destruct (jsnum_eqb (Cast.becoming c) JNull) eqn:Eb;
    destruct (is_nil (Cast.changingPositions c)) eqn:En;
    try discriminate.
    + apply jsnum_eqb_eq in Eb. apply is_nil_spec in En. split; congruence.
    + split; intros _.
      * intros E. apply is_nil_spec in E. congruence.
      * intros E. apply jsnum_eqb_eq in E. congruence.
  - destruct (is_nil (Cast.changingPositions c)) eqn:En.
    + apply is_nil_spec in En. simpl in *. split; [congruence|].
      intros [li [Hin Hc]].
      assert (existsb isChanging (Cast.lines c) = true)
        by (apply existsb_exists; eauto).
      congruence.
    + simpl in *. split.
      * intros _. apply existsb_exists. congruence.
      * intros _ E. apply is_nil_spec in E. congruence.
  - destruct Ho as [Ho|Ho].
    + left. apply jsnum_eqb_eq, Ho.
    + right. exact Ho.
Qed.

(** C5. Every Cast produced by [castHexagram] (whatever the entropy source
    yields) has six lines, each one of the four tosses; its nuclear, shadow
    and mirror are defined; its becoming is non-null exactly when
    changingPositions is non-empty, which is exactly when a line is changing;
    and primary, nuclear, shadow, mirror and a present becoming are
    identifiers of 1..64. *)
Theorem castHexagram_invariant :
  forall env w, exists c,
    castHexagram env w = (Ok c, advance 18 w) /\
    List.length (Cast.lines c) = 6%nat /\
    Forall (fun li => In li four_lines) (Cast.lines c) /\
    (exists p n s m,
        Cast.primary c = JNum p /\ 1 <= p <= 64 /\
        Cast.nuclear c = JNum n /\ 1 <= n <= 64 /\
        Cast.shadow c = JNum s /\ 1 <= s <= 64 /\
        Cast.mirror c = JNum m /\ 1 <= m <= 64) /\
    (Cast.becoming c <> JNull <-> Cast.changingPositions c <> []) /\
    (Cast.changingPositions c <> [] <->
     exists li, In li (Cast.lines c) /\ isChanging li = true) /\
    (Cast.becoming c = JNull \/
     exists b, Cast.becoming c = JNum b /\ 1 <= b <= 64).
Proof.
  intros env w.
  destruct (castHexagram_wf env w) as [c [E [Hwf Hl]]].
  exists c. split; [exact E|].
  rewrite Hl. split; [apply lines_at_length|].
  split; [apply lines_at_toss|]. rewrite <- Hl.
  destruct (cast_wf_spec c Hwf) as [Hp [Hn [Hs [Hm [Hb [Hc Ho]]]]]].
  apply valid_id_spec in Hp, Hn, Hs, Hm.
  destruct Hp as [p [? ?]], Hn as [n [? ?]], Hs as [s [? ?]], Hm as [m [? ?]].
  split; [exists p, n, s, m; tauto|].
  split; [exact Hb|]. split; [exact Hc|].
  destruct Ho as [Ho|Ho]; [left; exact Ho | right; apply valid_id_spec, Ho].
Qed.

(* ------------------------------------------------------------------ *)
(** ** Dates *)

Lemma append_cons_nonempty (a : string) c (b : string) :
  (a ++ String c b)%string <> ""%string.
Proof. destruct a; simpl; discriminate. Qed.

Lemma format_date_nonempty d : format_date d <> ""%string.
Proof. unfold format_date. apply append_cons_nonempty. Qed.

(* ------------------------------------------------------------------ *)
(** ** Frame of the entropy reads *)

Lemma same_files_refl w : same_files w w.
Proof. unfold same_files. tauto. Qed.

Lemma same_files_trans a b c :
  same_files a b -> same_files b c -> same_files a c.
Proof. unfold same_files. intuition congruence. Qed.

Lemma getRandomStyle_frame budget :
  forall env w, same_files w (snd (getRandomStyle budget env w)).
Proof.
  induction budget as [|n IH]; intros env w.
  - apply same_files_refl.
  - cbn [getRandomStyle]. unfold bind, randomBytes.
    destruct (nth 0 (bytes_at env (drawn w) 1) 0 >=? 250).
    + eapply same_files_trans; [apply (advance_same_files 1)|apply IH].
    + apply (advance_same_files 1).
Qed.

Lemma byte_to_Z_range b : 0 <= byte_to_Z b < 256.
Proof. apply (Zrange_In 0 256), byte_values_In. Qed.

Lemma first_byte env p :
  nth 0 (bytes_at env p 1) 0 = byte_to_Z (randomByte env (p + 0)).
Proof. reflexivity. Qed.

Lemma style_of_byte b :
  0 <= b -> exists s, index STYLES (b mod 5) = Some s /\ In s STYLES.
Proof.
  intros Hb.
  assert (Hr : 0 <= b mod 5 < 5) by (apply Z.mod_pos_bound; lia).
  assert (Hc : b mod 5 = 0 \/ b mod 5 = 1 \/ b mod 5 = 2 \/ b mod 5 = 3
               \/ b mod 5 = 4) by lia.
  destruct Hc as [Hc|[Hc|[Hc|[Hc|Hc]]]]; rewrite Hc;
    eexists; (split; [reflexivity|]); simpl; tauto.
Qed.

Lemma getRandomStyle_outcome budget :
  forall env w o w', getRandomStyle budget env w = (o, w') ->
    o = Spin \/ exists s, o = Ok (Some s) /\ In s STYLES.
Proof.
  induction budget as [|n IH]; intros env w o w' E.
  - inversion E. left. reflexivity.
  - cbn [getRandomStyle] in E. unfold bind, randomBytes in E.
    destruct (nth 0 (bytes_at env (drawn w) 1) 0 >=? 250) eqn:Hb.
    + eapply IH, E.
    + unfold ret in E. injection E as Eo Ew. subst o. right.
      try rewrite first_byte.
      destruct (style_of_byte (byte_to_Z (randomByte env (drawn w + 0))))
        as [s [Es Hin]]; [apply byte_to_Z_range|].
      exists s. rewrite Es. tauto.
Qed.

(** The loop ends as soon as the source yields a byte below 250. *)
Lemma getRandomStyle_ends k :
  forall budget env w,
    byte_to_Z (randomByte env (drawn w + k)) < 250 -> (k < budget)%nat ->
    exists s w', getRandomStyle budget env w = (Ok (Some s), w') /\ In s STYLES.
Proof.
  assert (accept : forall env w,
    (nth 0 (bytes_at env (drawn w) 1) 0 >=? 250) = false ->
    exists s w',
      ret (index STYLES (nth 0 (bytes_at env (drawn w) 1) 0 mod 5))
          env (advance 1 w) = (Ok (Some s), w') /\ In s STYLES).
  { intros env w _. rewrite first_byte.
    destruct (style_of_byte (byte_to_Z (randomByte env (drawn w + 0))))
      as [s [Es Hin]]; [apply byte_to_Z_range|].
    exists s, (advance 1 w). unfold ret. rewrite Es. tauto. }
  induction k as [|k IH]; intros budget env w Hb Hk;
    (destruct budget as [|n]; [lia|]);
    cbn [getRandomStyle]; unfold bind, randomBytes;
    destruct (nth 0 (bytes_at env (drawn w) 1) 0 >=? 250) eqn:Hge;
    try (apply accept; exact Hge).
  - rewrite first_byte in Hge. lia.
  - apply IH; [|lia]. unfold advance. cbn [drawn].
    replace (drawn w + 1 + k)%nat with (drawn w + S k)%nat by lia. exact Hb.
Qed.

Lemma frames_ret {A} (a : A) : frames (ret a).
Proof. intros env w. apply same_files_refl. Qed.

Lemma frames_lift {A} (o : outcome A) : frames (lift o).
Proof. intros env w. apply same_files_refl. Qed.

Lemma frames_randomBytes n : frames (randomBytes n).
Proof. intros env w. apply advance_same_files. Qed.

Lemma frames_bind {A B} (m : M A) (k : A -> M B) :
  frames m -> (forall a, frames (k a)) -> frames (bind m k).
Proof.
  intros Hm Hk env w. unfold bind.
  pose proof (Hm env w) as H1.
  destruct (m env w) as [[a| |] w1]; cbn [snd] in *; try exact H1.
  eapply same_files_trans; [exact H1 | apply Hk].
Qed.

Lemma frames_getRandomStyle budget : frames (getRandomStyle budget).
Proof. intros env w. apply getRandomStyle_frame. Qed.

Lemma frames_formatDerived budget c ty : frames (formatDerived budget c ty).
Proof.
  unfold formatDerived.
  destruct (is_mirror ty && jsnum_eqb (Cast.mirror c) (Cast.primary c)).
  - apply frames_bind; [apply frames_randomBytes|]. intros bytes.
    apply frames_bind; [apply frames_lift|]. intros g.
    apply frames_bind; [apply frames_getRandomStyle|]. intros s.
    apply frames_ret.
  - destruct (jsnum_eqb (cast_field c ty) JNull); [apply frames_ret|].
    apply frames_bind; [apply frames_lift|]. intros g.
    apply frames_bind; [apply frames_getRandomStyle|]. intros s.
    apply frames_ret.
Qed.

Lemma frames_reveal budget c : frames (reveal budget c).
Proof.
  unfold reveal.
  apply frames_bind; [apply frames_randomBytes|]. intros bytes.
  destruct (reveal_branch (nth 0 bytes 0)) as [s|ty|].
  - apply frames_bind; [apply frames_lift|]. intros t. apply frames_ret.
  - destruct ty;
      (apply frames_bind; [apply frames_formatDerived|]; intros t;
       apply frames_ret).
  - apply frames_ret.
Qed.

(* ------------------------------------------------------------------ *)
(** ** Formatting a well-formed cast *)

Lemma gua_entry_valid v :
  valid_id v = true ->
  exists k g, v = JNum k /\ 1 <= k <= 64 /\ gua_entry v = Ok (k, g).
Proof.
  intros H. apply valid_id_spec in H. destruct H as [k [-> Hk]].
  range_check gua_defined 1 64%nat k Hk H.
  unfold gua_defined in H. unfold gua_entry.
  destruct (deref GUA (k - 1)) as [g| |]; try discriminate.
  exists k, g. auto.
Qed.

Lemma formatReading_wf c s :
  cast_wf c = true ->
  exists t, formatReading c s = Ok t /\ text_truthy t = true /\
            reading_of c s t.
Proof.
  intros Hwf.
  destruct (cast_wf_spec c Hwf) as [Hp [_ [_ [_ [_ [_ Hb]]]]]].
  destruct (gua_entry_valid _ Hp) as [k [g [Ek [Hk Eg]]]].
  unfold formatReading. rewrite Eg. cbn [obind fst].
  destruct Hb as [Hb|Hb].
  - rewrite Hb. cbn [jsnum_eqb negb].
    eexists. split; [reflexivity|]. split; [reflexivity|].
    exists k. split; [exact Ek|]. left. auto.
  - destruct (gua_entry_valid _ Hb) as [b [gb [Eb [Hbk Egb]]]].
    rewrite Egb, Eb. cbn [jsnum_eqb negb obind fst].
    eexists. split; [reflexivity|]. split; [reflexivity|].
    exists k. split; [exact Ek|]. right. exists b. rewrite Eb. auto.
Qed.

(** With a well-formed cast and a byte below 250 within the budget,
    [formatDerived] returns. *)
Lemma formatDerived_returns budget c ty env w k :
  cast_wf c = true ->
  byte_to_Z (randomByte env (drawn w + 1 + k)) < 250 -> (k + 1 < budget)%nat ->
  exists t w', formatDerived budget c ty env w = (Ok t, w').
Proof.
  intros Hwf Hb Hk.
  destruct (cast_wf_spec c Hwf) as [Hp [Hn [Hs [Hm [_ [_ Hbec]]]]]].
  unfold formatDerived.
  destruct (is_mirror ty && jsnum_eqb (Cast.mirror c) (Cast.primary c)).
  - destruct (gua_entry_valid _ Hp) as [p [g [Ep [Hpk Eg]]]].
    unfold bind, randomBytes, lift. rewrite Eg.
    destruct (getRandomStyle_ends k budget env (advance 1 w))
      as [s [w' [E _]]]; [exact Hb | lia |].
    rewrite E. unfold ret. eauto.
  - assert (Hf : cast_field c ty = JNull \/ valid_id (cast_field c ty) = true).
    { destruct ty; cbn [cast_field]; auto. }
    destruct Hf as [Hf|Hf].
    + rewrite Hf. cbn [jsnum_eqb]. unfold ret. eauto.
    + destruct (gua_entry_valid _ Hf) as [q [g [Eq [Hqk Eg]]]].
      rewrite Eq in *. cbn [jsnum_eqb].
      unfold bind, lift. rewrite Eg.
      destruct (getRandomStyle_ends (1 + k) budget env w)
        as [s [w' [E _]]]; [|lia|].
      * replace (drawn w + (1 + k))%nat with (drawn w + 1 + k)%nat by lia.
        exact Hb.
      * rewrite E. unfold ret. eauto.
Qed.

Lemma reveal_returns budget c env w k :
  cast_wf c = true ->
  byte_to_Z (randomByte env (drawn w + 2 + k)) < 250 -> (k + 1 < budget)%nat ->
  exists out w', reveal budget c env w = (Ok out, w').
Proof.
  intros Hwf Hb Hk. unfold reveal, bind at 1, randomBytes.
  destruct (reveal_branch (nth 0 (bytes_at env (drawn w) 1) 0)) as [s|ty|].
  - destruct (formatReading_wf c s Hwf) as [t [E _]].
    unfold bind, lift, ret. rewrite E. eauto.
  - assert (D : exists t w', formatDerived budget c ty env (advance 1 w)
                             = (Ok t, w')).
    { apply (formatDerived_returns budget c ty env (advance 1 w) k Hwf);
        [|exact Hk].
      unfold advance. cbn [drawn].
      replace (drawn w + 1 + 1 + k)%nat with (drawn w + 2 + k)%nat by lia.
      exact Hb. }
    destruct D as [t [w' D]].
    destruct ty; unfold bind, ret; rewrite D; eauto.
  - unfold ret. eauto.
Qed.

(* ------------------------------------------------------------------ *)
(** ** Runs of [main] *)

Ltac run_main :=
  unfold main, main_try, bind, read_stdin, read_cache, today, ret, lift,
    appendToHistory, write_cache, console_log, process_exit, set_exit,
    string_truthy.

Ltac step :=
  cbn [cache_file history_file stdout cache_writes drawn exit_code fst snd
       DailyCache.shown DailyCache.date DailyCache.cast negb andb advance].

(** A run that finds no stored record. *)
Lemma main_missing_store budget env w :
  stdin_is_json env = true -> cache_file w = Absent ->
  exists c t,
    castHexagram env w = (Ok c, advance 18 w) /\ cast_wf c = true /\
    formatReading c dx = Ok t /\ reading_of c dx t /\
    main budget env w
    = mkWorld (Stored (DailyCache.mk (format_date (now env)) c true))
              (history_file w) (stdout w ++ [t]) (S (cache_writes w))
              (drawn w + 18) (Some 0).
Proof.
  intros Hs Hc.
  destruct (castHexagram_wf env w) as [c [E [Hwf _]]].
  destruct (formatReading_wf c dx Hwf) as [t [Et [Htt Hr]]].
  exists c, t. repeat (split; [assumption|]).
  run_main. rewrite Hs, Hc, E. step. rewrite Et. step. rewrite Htt. step.
  reflexivity.
Qed.

(** A run that finds a record of another day, with a non-empty date. *)
Lemma main_new_day budget env w old :
  stdin_is_json env = true -> cache_file w = Stored old ->
  DailyCache.date old <> format_date (now env) ->
  DailyCache.date old <> ""%string ->
  exists c t,
    castHexagram env w = (Ok c, advance 18 w) /\ cast_wf c = true /\
    formatReading c dx = Ok t /\ reading_of c dx t /\
    main budget env w
    = mkWorld (Stored (DailyCache.mk (format_date (now env)) c true))
              (history_file w
               ++ [HistoryEntry.mk (DailyCache.date old) (DailyCache.cast old)])
              (stdout w ++ [t]) (S (cache_writes w))
              (drawn w + 18) (Some 0).
Proof.
  intros Hs Hc Hd Hne.
  destruct (castHexagram_wf env w) as [c [E [Hwf _]]].
  destruct (formatReading_wf c dx Hwf) as [t [Et [Htt Hr]]].
  exists c, t. repeat (split; [assumption|]).
  apply String.eqb_neq in Hd, Hne.
  run_main. rewrite Hs, Hc. step. rewrite Hd, Hne. step.
  match goal with
  | |- context [castHexagram env ?w1] =>
      assert (E1 : castHexagram env w1 = (Ok c, advance 18 w1))
        by (rewrite castHexagram_run in *; step; congruence);
      rewrite E1
  end.
  step. rewrite Et. step. rewrite Htt. step.
  reflexivity.
Qed.

(** A run whose payload or store does not parse ends in the [catch]. *)
Lemma main_unparseable budget env w :
  stdin_is_json env = false \/ cache_file w = Unparseable ->
  main budget env w = set_exit 0 w.
Proof.
  intros [H|H]; run_main; rewrite H; [reflexivity|].
  destruct (stdin_is_json env); step; rewrite ?H; reflexivity.
Qed.

(** A run on today's record, already shown: what is left after [reveal]. *)
Lemma main_same_day budget env w rec :
  stdin_is_json env = true -> cache_file w = Stored rec ->
  DailyCache.date rec = format_date (now env) ->
  DailyCache.shown rec = true ->
  match reveal budget (DailyCache.cast rec) env w with
  | (Ok out, w1) =>
      main budget env w
      = mkWorld (Stored rec) (history_file w)
                (match out with
                 | Some t => if text_truthy t then stdout w ++ [t] else stdout w
                 | None => stdout w
                 end)
                (S (cache_writes w)) (drawn w1) (Some 0)
  | (Throw, w1) =>
      main budget env w
      = mkWorld (Stored rec) (history_file w) (stdout w) (cache_writes w)
                (drawn w1) (Some 0)
  | (Spin, w1) =>
      main budget env w
      = mkWorld (Stored rec) (history_file w) (stdout w) (cache_writes w)
                (drawn w1) (exit_code w)
  end.
Proof.
  intros Hs Hc Hd Hsh.
  pose proof (frames_reveal budget (DailyCache.cast rec) env w) as F.
  destruct (reveal budget (DailyCache.cast rec) env w) as [[out| |] w1] eqn:E;
    destruct F as [F1 [F2 [F3 [F4 F5]]]]; cbn [snd] in *;
    run_main; rewrite Hs, Hc; step; rewrite Hd, String.eqb_refl; step;
    rewrite Hsh; step; rewrite E; step.
  - destruct out as [t|]; [destruct (text_truthy t)|]; step;
      f_equal; congruence.
  - f_equal; congruence.
  - destruct w1 as [c1 h1 o1 n1 d1 x1].
    cbn [cache_file history_file stdout cache_writes exit_code drawn] in *.
    f_equal; congruence.
Qed.

(* ------------------------------------------------------------------ *)
(** ** Same day, already shown *)

(** C10. On an invocation that finds today's record with the shown flag
    set, the store holds the same record afterwards and the history is
    untouched, whatever the payload, the entropy and the budget; the record
    is written at most once. When the payload is JSON, the stored Cast is
    well formed and a byte below 250 comes up within the budget, the record
    is written back exactly once and the invocation exits with status 0. *)
Theorem same_day_shown_frame budget env w rec :
  cache_file w = Stored rec ->
  DailyCache.date rec = format_date (now env) ->
  DailyCache.shown rec = true ->
  let w' := main budget env w in
  cache_file w' = Stored rec /\
  history_file w' = history_file w /\
  (cache_writes w' = cache_writes w \/ cache_writes w' = S (cache_writes w)) /\
  (stdin_is_json env = true ->
   cast_wf (DailyCache.cast rec) = true ->
   forall k,
     byte_to_Z (randomByte env (drawn w + 2 + k)) < 250 ->
     (k + 1 < budget)%nat ->
     cache_writes w' = S (cache_writes w) /\ exit_code w' = Some 0).
Proof.
  intros Hc Hd Hsh. cbv zeta.
  destruct (stdin_is_json env) eqn:Hs.
  - pose proof (main_same_day budget env w rec Hs Hc Hd Hsh) as Hm.
    destruct (reveal budget (DailyCache.cast rec) env w) as [[out| |] w1] eqn:E;
      rewrite Hm; cbn [cache_file history_file cache_writes exit_code];
      (split; [reflexivity|]); (split; [reflexivity|]);
      (split; [auto|]); intros _ Hwf k Hb Hk;
      destruct (reveal_returns budget _ env w k Hwf Hb Hk) as [o [w2 E2]];
      try congruence.
    auto.
  - rewrite (main_unparseable budget env w (or_introl Hs)).
    unfold set_exit. cbn [cache_file history_file cache_writes exit_code].
    split; [exact Hc|]. split; [reflexivity|]. split; [auto|].
    intros; discriminate.
Qed.

Lemma same_day_shown_frame_witness :
  let w' := main 2 sample_env (world_with (Stored today_record)) in
  cache_file w' = Stored today_record /\
  history_file w' = [] /\
  cache_writes w' = 1%nat /\ exit_code w' = Some 0.
Proof.
  destruct (same_day_shown_frame 2 sample_env
              (world_with (Stored today_record)) today_record)
    as [H1 [H2 [_ H4]]].
  - reflexivity.
  - vm_compute. reflexivity.
  - reflexivity.
  - destruct (H4 eq_refl eq_refl 0%nat) as [H5 H6].
    + vm_compute. reflexivity.
    + lia.
    + cbv zeta. auto.
Defined.

(* ------------------------------------------------------------------ *)
(** ** The reveal chain *)

Lemma formatDerived_shape budget c ty env w t w' :
  formatDerived budget c ty env w = (Ok t, w') ->
  t = TEmpty \/ derived_text ty t.
Proof.
  unfold formatDerived.
  destruct (is_mirror ty && jsnum_eqb (Cast.mirror c) (Cast.primary c)) eqn:Hm.
  - apply andb_true_iff in Hm. destruct Hm as [Hm _].
    assert (ty = Dmirror) by (destruct ty; try discriminate; reflexivity).
    subst ty. unfold bind, randomBytes, lift.
    destruct (gua_entry (Cast.primary c)) as [g| |]; try discriminate.
    destruct (getRandomStyle budget env (advance 1 w)) as [o w2] eqn:E.
    destruct (getRandomStyle_outcome _ _ _ _ _ E) as [->|[s [-> _]]];
      [discriminate|].
    unfold ret. intros H. injection H as <- _.
    right. right. split; [reflexivity|]. eauto.
  - destruct (jsnum_eqb (cast_field c ty) JNull).
    + unfold ret. intros H. injection H as <- _. left. reflexivity.
    + unfold bind, lift.
      destruct (gua_entry (cast_field c ty)) as [g| |]; try discriminate.
      destruct (getRandomStyle budget env w) as [o w2] eqn:E.
      destruct (getRandomStyle_outcome _ _ _ _ _ E) as [->|[s [-> _]]];
        [discriminate|].
      unfold ret. intros H. injection H as <- _.
      right. left. eauto.
Qed.

Lemma derived_text_truthy ty t : derived_text ty t -> text_truthy t = true.
Proof.
  intros [[k [s ->]]|[_ [zh [k [s ->]]]]]; reflexivity.
Qed.

(** What [reveal] leaves in [out] is what the branch of its byte selects. *)
Lemma reveal_selected budget c env w out w1 :
  cast_wf c = true ->
  reveal budget c env w = (Ok out, w1) ->
  selected (reveal_branch (byte_to_Z (randomByte env (drawn w)))) c
           (match out with
            | Some t => if text_truthy t then [t] else []
            | None => []
            end).
Proof.
  intros Hwf. unfold reveal, bind at 1, randomBytes.
  rewrite first_byte, Nat.add_0_r.
  destruct (reveal_branch (byte_to_Z (randomByte env (drawn w)))) as [s|ty|];
    cbn [selected].
  - destruct (formatReading_wf c s Hwf) as [t [Et [Htt Hr]]].
    unfold bind, lift, ret. rewrite Et. intros H. injection H as <- _.
    rewrite Htt. eauto.
  - assert (D : forall t w2,
      formatDerived budget c ty env (advance 1 w) = (Ok t, w2) ->
      (if text_truthy t then [t] else []) = [] \/
      exists t', (if text_truthy t then [t] else []) = [t']
                 /\ derived_text ty t').
    { intros t w2 E. destruct (formatDerived_shape _ _ _ _ _ _ _ E) as [->|Ht].
      - left. reflexivity.
      - right. rewrite (derived_text_truthy _ _ Ht). eauto. }
    destruct (formatDerived budget c ty env (advance 1 w))
      as [[t| |] w2] eqn:E;
      destruct ty; unfold bind, ret; rewrite E; try discriminate;
      intros H; injection H as <- _; specialize (D t w2 eq_refl);
      destruct (text_truthy t) eqn:Ht; cbn beta iota; rewrite ?Ht; exact D.
  - unfold ret. intros H. injection H as <- _. reflexivity.
Qed.

(** C8 (amended). On a same-day invocation after the first reveal the
    branch is chosen by comparing byte/256 with the cut points 0.04, 0.08,
    0.12, 0.16, 0.2, 0.225, 0.25, 0.275, 0.3 (the doubles decide exactly as
    the decimal fractions do). With the byte uniform on 0..255 the five
    commentary bands hold 11, 10, 10, 10, 11 byte values and the four
    derived bands 6, 6, 7, 6: probabilities k/256, an output branch with
    77/256 and silence with 179/256. The bands are consecutive intervals,
    and the invocation prints what the band of its byte selects. *)
Theorem reveal_bands :
  (forall b, 0 <= b < 256 -> reveal_branch b = reveal_branch_exact b) /\
  map band_size (map BReading STYLES) = [11; 10; 10; 10; 11] /\
  map band_size (map BDerived [Dnuclear; Dshadow; Dmirror; Dbecoming])
    = [6; 6; 7; 6] /\
  band_size BSilent = 179 /\
  output_probability == 77 # 256 /\
  band_probability BSilent == 179 # 256 /\
  map band (map BReading STYLES)
    = [Zrange 0 11; Zrange 11 10; Zrange 21 10; Zrange 31 10; Zrange 41 11] /\
  map band (map BDerived [Dnuclear; Dshadow; Dmirror; Dbecoming])
    = [Zrange 52 6; Zrange 58 6; Zrange 64 7; Zrange 71 6] /\
  band BSilent = Zrange 77 179 /\
  (forall budget env w rec k,
      stdin_is_json env = true ->
      cache_file w = Stored rec ->
      DailyCache.date rec = format_date (now env) ->
      DailyCache.shown rec = true ->
      cast_wf (DailyCache.cast rec) = true ->
      byte_to_Z (randomByte env (drawn w + 2 + k)) < 250 ->
      (k + 1 < budget)%nat ->
      exists out,
        stdout (main budget env w) = stdout w ++ out /\
        selected (reveal_branch (byte_to_Z (randomByte env (drawn w))))
                 (DailyCache.cast rec) out).
Proof.
  split.
  { intros b Hb.
    assert (H : Branch_eqb (reveal_branch b) (reveal_branch_exact b) = true).
    { apply (forallb_Zrange
               (fun x => Branch_eqb (reveal_branch x) (reveal_branch_exact x))
               0 256); [vm_compute; reflexivity | simpl; lia]. }
    destruct (reveal_branch b) as [[]|[]|], (reveal_branch_exact b) as [[]|[]|];
      try discriminate H; reflexivity. }
  repeat (split; [vm_compute; reflexivity|]).
  intros budget env w rec k Hs Hc Hd Hsh Hwf Hb Hk.
  pose proof (main_same_day budget env w rec Hs Hc Hd Hsh) as Hm.
  destruct (reveal_returns budget _ env w k Hwf Hb Hk) as [out [w1 E]].
  rewrite E in Hm. rewrite Hm. cbn [stdout].
  pose proof (reveal_selected budget _ env w out w1 Hwf E) as Hsel.
  exists (match out with
          | Some t => if text_truthy t then [t] else []
          | None => []
          end).
  split; [|exact Hsel].
  destruct out as [t|]; [destruct (text_truthy t)|];
    rewrite ?app_nil_r; reflexivity.
Qed.

Lemma reveal_bands_witness :
  exists out,
    stdout (main 2 sample_env (world_with (Stored today_record))) = out /\
    selected (BReading dx) sample_cast out.
Proof.
  destruct reveal_bands as [_ [_ [_ [_ [_ [_ [_ [_ [_ H]]]]]]]]].
  destruct (H 2%nat sample_env (world_with (Stored today_record))
              today_record 0%nat) as [out [Ho Hsel]].
  - reflexivity.
  - reflexivity.
  - vm_compute. reflexivity.
  - reflexivity.
  - vm_compute. reflexivity.
  - vm_compute. reflexivity.
  - lia.
  - exists out. split; [exact Ho | exact Hsel].
Defined.

(** C8 as stated fails: no band has probability 4% or 2.5%, the commentary
    bands are not of equal width, and the chance of an output branch is
    77/256, not 30%. *)
Lemma reveal_bands_not_exact_percentages :
  ~ (band_probability (BReading dx) == 4 # 100) /\
  ~ (band_probability (BReading tu) == 4 # 100) /\
  band_size (BReading dx) <> band_size (BReading tu) /\
  ~ (band_probability (BDerived Dnuclear) == 25 # 1000) /\
  ~ (output_probability == 30 # 100) /\
  ~ (band_probability BSilent == 70 # 100).
Proof.
  assert (Edx : band_size (BReading dx) = 11) by (vm_compute; reflexivity).
  assert (Etu : band_size (BReading tu) = 10) by (vm_compute; reflexivity).
  assert (Enu : band_size (BDerived Dnuclear) = 6) by (vm_compute; reflexivity).
  assert (Esi : band_size BSilent = 179) by (vm_compute; reflexivity).
  assert (Eout : fold_right (fun br acc => band_size br + acc) 0 output_bands
                 = 77) by (vm_compute; reflexivity).
  unfold band_probability, output_probability, Qeq.
  rewrite Edx, Etu, Enu, Esi, Eout. cbn [Qnum Qden].
  repeat split; lia.
Qed.

(* ================================================================== *)
(** * Further properties of the code *)

(** ** Shadow, mirror and nuclear as operations *)

(** X1. Shadow is an involution on the 64 identifiers without fixed point:
    the shadow of an identifier is another identifier whose shadow is the
    first. On the lines of any cast, the shadow of the shadow identifier is
    the primary identifier. *)
Theorem shadow_involution :
  (forall x, 1 <= x <= 64 ->
     exists y, shadow_id x = JNum y /\ 1 <= y <= 64 /\ y <> x /\
               shadow_id y = JNum x) /\
  (forall lines, List.length lines = 6%nat ->
     exists b y, linesToBinary lines = Ok b /\ shadow lines = Ok (JNum y) /\
                 shadow_id y = kw_at b).
Proof.
  split.
  - intros x Hx. range_check shadow_involutive_ok 1 64%nat x Hx H.
    unfold shadow_involutive_ok in H.
    destruct (shadow_id x) as [| |y] eqn:Ey; try discriminate.
    apply andb_true_iff in H. destruct H as [H Hs].
    apply andb_true_iff in H. destruct H as [Hv Hn].
    exists y. split; [reflexivity|]. split; [simpl in Hv; lia|].
    split; [apply negb_true_iff, Z.eqb_neq in Hn; exact Hn|].
    apply jsnum_eqb_eq, Hs.
  - intros lines H. split_six lines H.
    destruct y0, y1, y2, y3, y4, y5;
      eexists; eexists;
      (split; [vm_compute; reflexivity|]);
      (split; [vm_compute; reflexivity|]);
      vm_compute; reflexivity.
Qed.

Lemma shadow_involution_witness :
  shadow lines_of_all_yang = Ok (JNum 2) /\ shadow_id 2 = JNum 1.
Proof.
  destruct shadow_involution as [_ H].
  destruct (H lines_of_all_yang eq_refl) as [b [y [Eb [Es Ey]]]].
  assert (y = 2) by (vm_compute in Es; congruence). subst y.
  assert (b = 63) by (vm_compute in Eb; congruence). subst b.
  split; [exact Es | exact Ey].
Defined.

(** X2. Mirror and shadow commute: reversing the inverted lines is
    inverting the reversed lines, for any array of lines, and on each of
    the 64 identifiers the shadow of the mirror is the mirror of the
    shadow. The identifiers left fixed by the two together are exactly
    those whose mirror equals their shadow. *)
Theorem mirror_shadow_commute :
  (forall lines, shadow (rev lines) = mirror (map invert lines)) /\
  (forall x, 1 <= x <= 64 ->
     exists d, then_id mirror_id shadow_id x = JNum d /\ 1 <= d <= 64 /\
               then_id shadow_id mirror_id x = JNum d) /\
  filter (fun x => jsnum_eqb (then_id mirror_id shadow_id x) (JNum x))
         identifiers
  = filter locked identifiers.
Proof.
  split.
  - intros lines. unfold shadow, mirror. rewrite map_rev. reflexivity.
  - split; [|vm_compute; reflexivity].
    intros x Hx. range_check commute_ok 1 64%nat x Hx H.
    unfold commute_ok in H. apply andb_true_iff in H. destruct H as [Hv Hc].
    apply valid_id_spec in Hv. destruct Hv as [d [Ed Hd]].
    exists d. split; [exact Ed|]. split; [exact Hd|].
    apply jsnum_eqb_eq in Hc. congruence.
Qed.

Lemma mirror_shadow_commute_witness :
  exists d, then_id mirror_id shadow_id 3 = JNum d /\ 1 <= d <= 64 /\
            then_id shadow_id mirror_id 3 = JNum d.
Proof.
  destruct mirror_shadow_commute as [_ [H _]]. apply (H 3). lia.
Defined.

(** X3. [linesToBinary] reads exactly the first six entries: it throws on
    an array of fewer than six lines, and on six or more it returns the sum
    of 2^i over the yang lines i among the first six, a value below 64,
    whatever follows them and whatever the lines' values and changing
    flags are. *)
Theorem linesToBinary_reads_six (lines : list Line) :
  ((List.length lines < 6)%nat -> linesToBinary lines = Throw) /\
  ((6 <= List.length lines)%nat ->
   linesToBinary lines = Ok (spec_encode (firstn 6 lines)) /\
   0 <= spec_encode (firstn 6 lines) < 64 /\
   linesToBinary lines
   = linesToBinary (map (fun li => mkLine 7 (isYang li) false)
                        (firstn 6 lines))).
Proof.
  split; intros H.
  - destruct lines as [|[v0 y0 c0] [|[v1 y1 c1] [|[v2 y2 c2] [|[v3 y3 c3]
      [|[v4 y4 c4] [|? ?]]]]]]; try (simpl in H; lia); reflexivity.
  - destruct lines as [|[v0 y0 c0] [|[v1 y1 c1] [|[v2 y2 c2] [|[v3 y3 c3]
      [|[v4 y4 c4] [|[v5 y5 c5] rest]]]]]]; try (simpl in H; lia).
    destruct y0, y1, y2, y3, y4, y5; vm_compute; intuition congruence.
Qed.

Lemma linesToBinary_reads_six_witness :
  linesToBinary (lines_of_pattern [1; 0; 0; 0; 1]) = Throw /\
  linesToBinary (lines_of_pattern [1; 0; 0; 0; 1; 0; 1; 1]) = Ok 17.
Proof.
  split.
  - destruct (linesToBinary_reads_six (lines_of_pattern [1; 0; 0; 0; 1]))
      as [H _].
    apply H. vm_compute. lia.
  - destruct (linesToBinary_reads_six
                (lines_of_pattern [1; 0; 0; 0; 1; 0; 1; 1])) as [_ H].
    destruct H as [H _]; [vm_compute; lia|]. exact H.
Defined.

(** X4. [nuclear] reads only the entries 1 to 4 of its array (lines 2 to
    5): it throws on fewer than five lines, and otherwise returns an
    identifier of 1..64 that does not change when the bottom line, the top
    line or anything after the fifth entry is replaced. An array of five
    lines, on which [linesToBinary] throws, still has a nuclear. *)
Theorem nuclear_reads_middle_four :
  (forall lines, (List.length lines < 5)%nat -> nuclear lines = Throw) /\
  (forall a l1 l2 l3 l4 rest,
     exists n, nuclear (a :: l1 :: l2 :: l3 :: l4 :: rest) = Ok (JNum n) /\
               1 <= n <= 64) /\
  (forall a a' l1 l2 l3 l4 rest rest',
     nuclear (a :: l1 :: l2 :: l3 :: l4 :: rest)
     = nuclear (a' :: l1 :: l2 :: l3 :: l4 :: rest')).
Proof.
  split; [|split].
  - intros lines H.
    destruct lines as [|a [|b [|c [|d [|e ?]]]]]; try (simpl in H; lia);
      reflexivity.
  - intros a [v1 y1 c1] [v2 y2 c2] [v3 y3 c3] [v4 y4 c4] rest.
    destruct y1, y2, y3, y4; eexists;
      (split; [vm_compute; reflexivity | lia]).
  - intros. reflexivity.
Qed.

Lemma nuclear_reads_middle_four_witness :
  nuclear (lines_of_pattern [1; 0; 0; 0]) = Throw /\
  nuclear (lines_of_pattern [1; 0; 0; 0; 1]) = Ok (JNum 23).
Proof.
  destruct nuclear_reads_middle_four as [Hshort [Hfive _]]. split.
  - apply Hshort. vm_compute. lia.
  - destruct (Hfive (line_of_bit 1) (line_of_bit 0) (line_of_bit 0)
                (line_of_bit 0) (line_of_bit 1) []) as [n [E _]].
    assert (n = 23) by (vm_compute in E; congruence). subst n. exact E.
Defined.

(** X5. Only 16 of the 64 identifiers occur as a nuclear hexagram, each
    for exactly 4 primaries, and the nuclear of a nuclear is always one of
    1, 2, 63, 64. *)
Theorem nuclear_image_16 :
  nuclear_image
  = [1; 2; 23; 24; 27; 28; 37; 38; 39; 40; 43; 44; 53; 54; 63; 64] /\
  map (fun y => List.length (nuclear_fibre y)) nuclear_image
  = repeat 4%nat 16 /\
  (forall x, 1 <= x <= 64 ->
     exists y, then_id nuclear_id nuclear_id x = JNum y /\ In y [1; 2; 63; 64]).
Proof.
  assert (T : nuclear_table
              = map JNum
                  [1; 2; 23; 24; 38; 37; 24; 23; 38; 37; 54; 53; 44; 43; 40;
                   39; 53; 54; 24; 23; 39; 40; 2; 2; 53; 54; 2; 1; 27; 28;
                   44; 43; 44; 43; 39; 40; 64; 63; 64; 63; 24; 23; 1; 1; 53;
                   54; 37; 38; 44; 43; 39; 40; 64; 63; 28; 28; 38; 37; 27;
                   27; 27; 28; 64; 63])
    by (vm_compute; reflexivity).
  unfold nuclear_image, nuclear_fibre. rewrite T.
  split; [vm_compute; reflexivity|].
  split; [vm_compute; reflexivity|].
  intros x Hx. range_check nuclear_twice_ok 1 64%nat x Hx H.
  unfold nuclear_twice_ok in H. apply existsb_exists in H.
  destruct H as [y [Hin Hy]]. exists y. split; [|exact Hin].
  apply jsnum_eqb_eq, Hy.
Qed.

Lemma nuclear_image_16_witness :
  exists y, then_id nuclear_id nuclear_id 3 = JNum y /\ In y [1; 2; 63; 64].
Proof.
  destruct nuclear_image_16 as [_ [_ H]]. apply (H 3). lia.
Defined.

(* ------------------------------------------------------------------ *)
(** ** Style selection *)

(** X6. [getRandomStyle] skips every byte of 250 or more and answers with
    [STYLES[b % 5]] for the first byte [b] below 250, having drawn exactly
    the bytes up to it; while only bytes of 250 or more come it keeps
    drawing. Each of the five styles is the answer for exactly 50 of the
    250 accepted byte values; the six rejected values are 250..255. *)
Theorem getRandomStyle_unbiased :
  (forall k budget env w,
     (forall j, (j < k)%nat ->
                250 <= byte_to_Z (randomByte env (drawn w + j))) ->
     byte_to_Z (randomByte env (drawn w + k)) < 250 ->
     (k < budget)%nat ->
     getRandomStyle budget env w
     = (Ok (index STYLES (byte_to_Z (randomByte env (drawn w + k)) mod 5)),
        advance (S k) w)) /\
  (forall budget env w,
     (forall j, (j < budget)%nat ->
                250 <= byte_to_Z (randomByte env (drawn w + j))) ->
     getRandomStyle budget env w = (Spin, advance budget w)) /\
  map (fun s => List.length (style_band s)) STYLES
  = [50; 50; 50; 50; 50]%nat /\
  rejected_bytes = [250; 251; 252; 253; 254; 255].
Proof.
  split; [|split; [|split; vm_compute; reflexivity]].
  - induction k as [|k IH]; intros budget env w Hrej Hacc Hk;
      (destruct budget as [|n]; [lia|]);
      cbn [getRandomStyle]; unfold bind, randomBytes; rewrite first_byte.
    + destruct (byte_to_Z (randomByte env (drawn w + 0)) >=? 250) eqn:Hge;
        [lia|]. reflexivity.
    + pose proof (Hrej 0%nat ltac:(lia)) as H0.
      destruct (byte_to_Z (randomByte env (drawn w + 0)) >=? 250) eqn:Hge;
        [|lia].
      rewrite (IH n env (advance 1 w)).
      * unfold advance at 1. cbn [drawn].
        replace (drawn w + 1 + k)%nat with (drawn w + S k)%nat by lia.
        rewrite advance_advance. reflexivity.
      * intros j Hj. unfold advance. cbn [drawn].
        replace (drawn w + 1 + j)%nat with (drawn w + S j)%nat by lia.
        apply Hrej. lia.
      * unfold advance. cbn [drawn].
        replace (drawn w + 1 + k)%nat with (drawn w + S k)%nat by lia.
        exact Hacc.
      * lia.
  - induction budget as [|n IH]; intros env w Hrej.
    + cbn [getRandomStyle]. unfold lift. rewrite advance_0. reflexivity.
    + cbn [getRandomStyle]. unfold bind, randomBytes. rewrite first_byte.
      pose proof (Hrej 0%nat ltac:(lia)) as H0.
      destruct (byte_to_Z (randomByte env (drawn w + 0)) >=? 250) eqn:Hge;
        [|lia].
      rewrite (IH env (advance 1 w)).
      * rewrite advance_advance. reflexivity.
      * intros j Hj. unfold advance. cbn [drawn].
        replace (drawn w + 1 + j)%nat with (drawn w + S j)%nat by lia.
        apply Hrej. lia.
Qed.

Lemma getRandomStyle_unbiased_witness :
  getRandomStyle 1 sample_env (world_with Absent)
  = (Ok (Some dx), advance 1 (world_with Absent)).
Proof.
  destruct getRandomStyle_unbiased as [H _].
  apply (H 0%nat 1%nat sample_env (world_with Absent)).
  - intros j Hj. lia.
  - vm_compute. reflexivity.
  - lia.
Defined.

(* ------------------------------------------------------------------ *)
(** ** The date string *)

Lemma string_length_app (a b : string) :
  String.length (a ++ b) = (String.length a + String.length b)%nat.
Proof. induction a as [|c a IH]; simpl; [reflexivity|]. now rewrite IH. Qed.

Lemma string_app_inj (s1 s2 t1 t2 : string) :
  String.length t1 = String.length t2 ->
  (s1 ++ t1 = s2 ++ t2)%string -> s1 = s2 /\ t1 = t2.
Proof.
  revert s2. induction s1 as [|c s1 IH]; intros s2 Hlen E.
  - destruct s2 as [|c2 s2]; [auto|].
    simpl in E. apply (f_equal String.length) in E.
    simpl in E. rewrite string_length_app in E. lia.
  - destruct s2 as [|c2 s2].
    + simpl in E. apply (f_equal String.length) in E.
      simpl in E. rewrite string_length_app in E. lia.
    + simpl in E. injection E as Ec Es.
      destruct (IH s2 Hlen Es) as [-> ->]. subst. auto.
Qed.

Lemma js_String_inj a b : js_String a = js_String b -> a = b.
Proof.
  unfold js_String. intros E.
  assert (N : forall z, NilZero.int_of_string
                          (NilZero.string_of_int (Z.to_int z))
                        = Some (Z.to_int z)).
  { intros z. apply NilZero.isi; destruct z; simpl; try discriminate;
      intros H; injection H as H;
      apply (DecimalPos.Unsigned.to_uint_nonnil _ H). }
  apply DecimalZ.to_int_inj.
  pose proof (N a) as Ha. rewrite E, N in Ha. congruence.
Qed.

Lemma pad2_length n :
  0 <= n < 100 -> String.length (pad2 n) = 2%nat.
Proof.
  intros Hn. range_check pad2_length_ok 0 100%nat n Hn H.
  apply Nat.eqb_eq, H.
Qed.

Lemma pad2_inj n m :
  0 <= n < 100 -> 0 <= m < 100 -> pad2 n = pad2 m -> n = m.
Proof.
  intros Hn Hm E. range_check pad2_distinct_ok 0 100%nat n Hn H.
  unfold pad2_distinct_ok in H.
  pose proof (forallb_Zrange _ 0 100%nat H m) as H'. cbv beta in H'.
  specialize (H' ltac:(simpl; lia)).
  apply orb_true_iff in H'. destruct H' as [H'|H'].
  - apply negb_true_iff in H'. apply String.eqb_neq in H'. contradiction.
  - apply Z.eqb_eq, H'.
Qed.

(** X7. [today] tells calendar days apart: two dates (month 0..11, day
    1..31, any year) with the same formatted string are the same date, so
    the comparison of the stored date with today's detects every change of
    day. The string is the year followed by "-", a two-character month,
    "-" and a two-character day. *)
Theorem format_date_injective :
  (forall d1 d2,
     valid_date d1 = true -> valid_date d2 = true ->
     format_date d1 = format_date d2 -> d1 = d2) /\
  (forall d,
     valid_date d = true ->
     exists mm dd,
       String.length mm = 2%nat /\ String.length dd = 2%nat /\
       format_date d
       = (js_String (getFullYear d) ++ "-" ++ mm ++ "-" ++ dd)%string).
Proof.
  assert (V : forall d, valid_date d = true ->
                        0 <= getMonth d + 1 < 100 /\ 0 <= getDate d < 100).
  { intros d H. unfold valid_date in H.
    repeat (apply andb_true_iff in H; destruct H as [H ?]). lia. }
  assert (S3 : forall d, valid_date d = true ->
             String.length (String "-" (pad2 (getDate d))) = 3%nat).
  { intros d H. cbn [String.length]. rewrite pad2_length; [reflexivity|].
    apply V, H. }
  assert (S6 : forall d, valid_date d = true ->
             String.length (String "-" (pad2 (getMonth d + 1)
                                        ++ String "-" (pad2 (getDate d))))
             = 6%nat).
  { intros d H. cbn [String.length].
    rewrite string_length_app, pad2_length, (S3 d H); [reflexivity|].
    apply V, H. }
  split.
  - intros d1 d2 H1 H2 E. unfold format_date in E.
    change (js_String (getFullYear d1)
            ++ String "-" (pad2 (getMonth d1 + 1)
                           ++ String "-" (pad2 (getDate d1)))
            = js_String (getFullYear d2)
              ++ String "-" (pad2 (getMonth d2 + 1)
                             ++ String "-" (pad2 (getDate d2))))%string in E.
    apply string_app_inj in E; [|rewrite (S6 d1 H1), (S6 d2 H2); reflexivity].
    destruct E as [Ey E]. injection E as E.
    apply string_app_inj in E; [|rewrite (S3 d1 H1), (S3 d2 H2); reflexivity].
    destruct E as [Em E]. injection E as Ed.
    apply js_String_inj in Ey.
    apply pad2_inj in Em; try (apply V; assumption).
    apply pad2_inj in Ed; try (apply V; assumption).
    destruct d1 as [y1 m1 a1], d2 as [y2 m2 a2].
    cbn [getFullYear getMonth getDate] in *.
    f_equal; lia.
  - intros d H. exists (pad2 (getMonth d + 1)), (pad2 (getDate d)).
    split; [apply pad2_length, V, H|].
    split; [apply pad2_length, V, H|]. reflexivity.
Qed.

Lemma format_date_injective_witness :
  format_date (mkDate 2026 0 3) = "2026-01-03"%string /\
  (format_date (mkDate 2026 0 3) = format_date (mkDate 2026 0 3) ->
   mkDate 2026 0 3 = mkDate 2026 0 3).
Proof.
  destruct format_date_injective as [Hi _]. split.
  - reflexivity.
  - apply Hi; reflexivity.
Defined.

(* ------------------------------------------------------------------ *)
(** ** Formatting any stored cast *)

Lemma GUA_length : List.length GUA = 64%nat.
Proof. reflexivity. Qed.

Lemma gua_entry_invalid v : valid_id v = false -> gua_entry v = Throw.
Proof.
  destruct v as [| |k]; try reflexivity. cbn [valid_id gua_entry].
  intros H. unfold deref, index.
  destruct (k - 1 <? 0) eqn:Hneg; [reflexivity|].
  apply Z.ltb_ge in Hneg.
  assert (Hk : 64 < k) by (apply andb_false_iff in H; lia).
  assert (E : nth_error GUA (Z.to_nat (k - 1)) = None).
  { apply nth_error_None. rewrite GUA_length. lia. }
  rewrite E. reflexivity.
Qed.

(** X8. [formatReading] on every cast of the declared [Cast] shape, that
    is, with [changingPositions] an array of numbers and with primary and
    becoming each an integer, null or undefined: it throws exactly when the
    primary is not an identifier of 1..64, or the becoming is neither null
    nor such an identifier; otherwise it returns the non-empty reading of
    the primary in the requested style, with the becoming part exactly when
    becoming is not null. *)
Theorem formatReading_throws_iff c s :
  match formatReading c s with
  | Ok t =>
      reading_of c s t /\ text_truthy t = true /\
      valid_id (Cast.primary c) = true /\
      (Cast.becoming c = JNull \/ valid_id (Cast.becoming c) = true)
  | Throw =>
      valid_id (Cast.primary c) = false \/
      (Cast.becoming c <> JNull /\ valid_id (Cast.becoming c) = false)
  | Spin => False
  end.
Proof.
  unfold formatReading.
  destruct (valid_id (Cast.primary c)) eqn:Hp.
  - destruct (gua_entry_valid _ Hp) as [k [g [Ek [Hk Eg]]]].
    rewrite Eg. cbn [obind fst].
    destruct (jsnum_eqb (Cast.becoming c) JNull) eqn:Hn; cbn [negb].
    + apply jsnum_eqb_eq in Hn.
      split; [exists k; split; [exact Ek|left; auto]|]. auto.
    + assert (Hnn : Cast.becoming c <> JNull).
      { intros E. rewrite E in Hn. discriminate. }
      destruct (valid_id (Cast.becoming c)) eqn:Hb.
      * destruct (gua_entry_valid _ Hb) as [b [gb [Eb [Hbk Egb]]]].
        rewrite Egb. cbn [obind fst].
        split; [exists k; split; [exact Ek|right; exists b; auto]|]. auto.
      * rewrite (gua_entry_invalid _ Hb). cbn [obind]. right. auto.
  - rewrite (gua_entry_invalid _ Hp). cbn [obind]. left. reflexivity.
Qed.

(* ------------------------------------------------------------------ *)
(** ** Every run of [main] *)

Lemma formatReading_truthy c s t :
  formatReading c s = Ok t -> text_truthy t = true.
Proof.
  unfold formatReading.
  destruct (gua_entry (Cast.primary c)) as [g| |]; try discriminate.
  cbn [obind].
  destruct (negb (jsnum_eqb (Cast.becoming c) JNull)).
  - destruct (gua_entry (Cast.becoming c)) as [b| |]; try discriminate.
    cbn [obind]. intros H. injection H as <-. reflexivity.
  - intros H. injection H as <-. reflexivity.
Qed.

Lemma gua_entry_not_spin v : gua_entry v <> Spin.
Proof.
  destruct v as [| |k]; cbn [gua_entry]; try discriminate.
  unfold deref. destruct (index GUA (k - 1)); discriminate.
Qed.

Lemma formatReading_not_spin c s : formatReading c s <> Spin.
Proof.
  unfold formatReading.
  pose proof (gua_entry_not_spin (Cast.primary c)) as Hp.
  pose proof (gua_entry_not_spin (Cast.becoming c)) as Hb.
  destruct (gua_entry (Cast.primary c)) as [g| |];
    cbn [obind]; try discriminate; try contradiction.
  destruct (negb (jsnum_eqb (Cast.becoming c) JNull)); [|discriminate].
  destruct (gua_entry (Cast.becoming c)) as [b| |];
    cbn [obind]; try discriminate; try contradiction.
Qed.

(** A run that finds a record of another day whose date is empty. *)
Lemma main_empty_date budget env w old :
  stdin_is_json env = true -> cache_file w = Stored old ->
  DailyCache.date old = ""%string ->
  exists c t,
    castHexagram env w = (Ok c, advance 18 w) /\ cast_wf c = true /\
    formatReading c dx = Ok t /\ reading_of c dx t /\
    main budget env w
    = mkWorld (Stored (DailyCache.mk (format_date (now env)) c true))
              (history_file w) (stdout w ++ [t]) (S (cache_writes w))
              (drawn w + 18) (Some 0).
Proof.
  intros Hs Hc He.
  destruct (castHexagram_wf env w) as [c [E [Hwf _]]].
  destruct (formatReading_wf c dx Hwf) as [t [Et [Htt Hr]]].
  exists c, t. repeat (split; [assumption|]).
  assert (Hd : (""%string =? format_date (now env))%string = false).
  { apply String.eqb_neq. intros H. symmetry in H.
    apply (format_date_nonempty _ H). }
  run_main. rewrite Hs, Hc. step. rewrite He, Hd, String.eqb_refl. step.
  rewrite E. step. rewrite Et. step. rewrite Htt. step.
  reflexivity.
Qed.

(** A run on today's record, not yet shown. *)
Lemma main_first_show budget env w r :
  stdin_is_json env = true -> cache_file w = Stored r ->
  DailyCache.date r = format_date (now env) ->
  DailyCache.shown r = false ->
  match formatReading (DailyCache.cast r) dx with
  | Ok t =>
      main budget env w
      = mkWorld (Stored (DailyCache.mk (format_date (now env))
                                       (DailyCache.cast r) true))
                (history_file w) (stdout w ++ [t]) (S (cache_writes w))
                (drawn w) (Some 0)
  | Throw => main budget env w = set_exit 0 w
  | Spin => False
  end.
Proof.
  intros Hs Hc Hd Hsh.
  pose proof (formatReading_truthy (DailyCache.cast r) dx) as Ht.
  pose proof (formatReading_not_spin (DailyCache.cast r) dx) as Hn.
  destruct (formatReading (DailyCache.cast r) dx) as [t| |] eqn:E;
    [| |exact (Hn eq_refl)];
    run_main; rewrite Hs, Hc; step; rewrite Hd, String.eqb_refl; step;
    rewrite Hsh; step; rewrite E; step;
    [rewrite (Ht t eq_refl); step; rewrite Hd; reflexivity
    | rewrite ?Hc; reflexivity ..].
Qed.

(** The five ways a run of [main] can end. *)
Lemma main_outcomes budget env w :
  let today := format_date (now env) in
  (main budget env w = set_exit 0 w /\
   (stdin_is_json env = false \/ cache_file w = Unparseable \/
    exists r, cache_file w = Stored r /\ DailyCache.date r = today /\
              DailyCache.shown r = false /\
              formatReading (DailyCache.cast r) dx = Throw)) \/
  (exists c t h,
     stdin_is_json env = true /\
     cast_wf c = true /\ reading_of c dx t /\ text_truthy t = true /\
     ((cache_file w = Absent /\ h = []) \/
      (exists old, cache_file w = Stored old /\
                   DailyCache.date old <> today /\
                   (h = [] \/ h = [entry_of old]))) /\
     main budget env w
     = mkWorld (Stored (DailyCache.mk today c true))
               (history_file w ++ h) (stdout w ++ [t]) (S (cache_writes w))
               (drawn w + 18) (Some 0)) \/
  (exists r t,
     stdin_is_json env = true /\
     cache_file w = Stored r /\ DailyCache.date r = today /\
     DailyCache.shown r = false /\
     formatReading (DailyCache.cast r) dx = Ok t /\
     main budget env w
     = mkWorld (Stored (DailyCache.mk today (DailyCache.cast r) true))
               (history_file w) (stdout w ++ [t]) (S (cache_writes w))
               (drawn w) (Some 0)) \/
  (exists r out d,
     stdin_is_json env = true /\
     cache_file w = Stored r /\ DailyCache.date r = today /\
     DailyCache.shown r = true /\
     (List.length out <= 1)%nat /\
     Forall (fun t => text_truthy t = true) out /\
     main budget env w
     = mkWorld (Stored r) (history_file w) (stdout w ++ out)
               (S (cache_writes w)) d (Some 0)) \/
  (exists r d x,
     stdin_is_json env = true /\
     cache_file w = Stored r /\ DailyCache.date r = today /\
     DailyCache.shown r = true /\
     (x = Some 0 \/ x = exit_code w) /\
     main budget env w
     = mkWorld (Stored r) (history_file w) (stdout w) (cache_writes w) d x).
Proof.
  cbv zeta.
  destruct (stdin_is_json env) eqn:Hs;
    [|left; split; [apply main_unparseable|]; auto].
  destruct (cache_file w) as [| |r] eqn:Hc.
  - right. left.
    destruct (main_missing_store budget env w Hs Hc)
      as [c [t [_ [Hwf [Et [Hr Hm]]]]]].
    exists c, t, []. rewrite app_nil_r.
    pose proof (formatReading_truthy _ _ _ Et). auto 10.
  - left. split; [apply main_unparseable|]; auto.
  - destruct (String.eqb_spec (DailyCache.date r) (format_date (now env)))
      as [Hd|Hd].
    + destruct (DailyCache.shown r) eqn:Hsh.
      * pose proof (main_same_day budget env w r Hs Hc Hd Hsh) as Hm.
        destruct (reveal budget (DailyCache.cast r) env w)
          as [[out| |] w1] eqn:E.
        -- right. right. right. left.
           exists r,
             (match out with
              | Some t => if text_truthy t then [t] else []
              | None => []
              end), (drawn w1).
           repeat (split; [first [reflexivity | assumption]|]).
           split; [destruct out as [t|]; [destruct (text_truthy t)|];
                   simpl; lia|].
           split.
           { destruct out as [t|]; [destruct (text_truthy t) eqn:Ht|];
               auto. }
           rewrite Hm. f_equal.
           destruct out as [t|]; [destruct (text_truthy t)|];
             rewrite ?app_nil_r; reflexivity.
        -- right. right. right. right.
           exists r, (drawn w1), (Some 0). auto 10.
        -- right. right. right. right.
           exists r, (drawn w1), (exit_code w). auto 10.
      * pose proof (main_first_show budget env w r Hs Hc Hd Hsh) as Hm.
        destruct (formatReading (DailyCache.cast r) dx) as [t| |] eqn:E.
        -- right. right. left. exists r, t. auto 10.
        -- left. split; [exact Hm|]. right. right. exists r. auto.
        -- contradiction.
    + right. left.
      destruct (String.eqb_spec (DailyCache.date r) "") as [He|He].
      * destruct (main_empty_date budget env w r Hs Hc He)
          as [c [t [_ [Hwf [Et [Hr Hm]]]]]].
        exists c, t, []. rewrite app_nil_r.
        pose proof (formatReading_truthy _ _ _ Et).
        repeat (split; [first [reflexivity | assumption]|]).
        split; [right; exists r; auto|exact Hm].
      * destruct (main_new_day budget env w r Hs Hc Hd He)
          as [c [t [_ [Hwf [Et [Hr Hm]]]]]].
        exists c, t, [entry_of r].
        pose proof (formatReading_truthy _ _ _ Et).
        repeat (split; [first [reflexivity | assumption]|]).
        split; [right; exists r; auto|exact Hm].
Qed.

(** X9. Whatever the payload, the entropy and the budget, and for every
    store that is missing, unparseable or holds a record of the declared
    [DailyCache] shape (a string date, a boolean shown flag, a cast of the
    declared [Cast] shape), one invocation prints at most one line, never
    an empty one; appends at most one history entry, after the existing
    ones, and only the entry of the record it loaded; and either leaves the
    store file untouched or writes it once, with a record dated today whose
    shown flag is set. It exits with status 0, unless the style loop is
    still drawing, and then it has printed and written nothing. *)
Theorem main_effects_bounded budget env w :
  let w' := main budget env w in
  (exit_code w' = Some 0 \/
   (exit_code w' = exit_code w /\ stdout w' = stdout w /\
    cache_writes w' = cache_writes w)) /\
  (exists out, stdout w' = stdout w ++ out /\ (List.length out <= 1)%nat /\
               Forall (fun t => text_truthy t = true) out) /\
  (exists h, history_file w' = history_file w ++ h /\
             (h = [] \/ exists old, cache_file w = Stored old /\
                                    h = [entry_of old])) /\
  ((cache_writes w' = cache_writes w /\ cache_file w' = cache_file w) \/
   (cache_writes w' = S (cache_writes w) /\
    exists c, cache_file w' = Stored c /\ DailyCache.shown c = true /\
              DailyCache.date c = format_date (now env))).
Proof.
  cbv zeta.
  destruct (main_outcomes budget env w)
    as [[Hm _]
       |[[c [t [h [_ [_ [_ [Ht [Hh Hm]]]]]]]]
       |[[r [t [_ [Hc [Hd [_ [Et Hm]]]]]]]
       |[[r [out [d [_ [Hc [Hd [Hsh [Hl [Ho Hm]]]]]]]]]
       |[r [d [x [_ [Hc [Hd [Hsh [Hx Hm]]]]]]]]]]]];
    rewrite Hm; unfold set_exit;
    cbn [cache_file history_file stdout cache_writes exit_code].
  - split; [auto|]. split; [exists []; rewrite app_nil_r; auto|].
    split; [exists []; rewrite app_nil_r; auto|]. auto.
  - split; [auto|]. split; [exists [t]; auto|].
    split.
    + exists h. split; [reflexivity|].
      destruct Hh as [[_ ->]|[old [Ho [_ [->| ->]]]]]; eauto.
    + right. split; [reflexivity|]. eexists. split; [reflexivity|]. auto.
  - split; [auto|].
    pose proof (formatReading_truthy _ _ _ Et).
    split; [exists [t]; auto|].
    split; [exists []; rewrite app_nil_r; auto|].
    right. split; [reflexivity|]. eexists. split; [reflexivity|]. auto.
  - split; [auto|]. split; [exists out; auto|].
    split; [exists []; rewrite app_nil_r; auto|].
    right. split; [reflexivity|]. exists r. auto.
  - split; [destruct Hx as [-> | ->]; auto|].
    split; [exists []; rewrite app_nil_r; auto|].
    split; [exists []; rewrite app_nil_r; auto|]. auto.
Qed.

(** X10. A stored record whose date is the empty string is replaced like
    any record of another day, but nothing is appended to the history: the
    guard on [cache?.date] skips the archive of such a record. *)
Theorem empty_date_is_not_archived budget env w old :
  stdin_is_json env = true ->
  cache_file w = Stored old ->
  DailyCache.date old = ""%string ->
  exists c,
    fst (castHexagram env w) = Ok c /\
    let w' := main budget env w in
    cache_file w' = Stored (DailyCache.mk (format_date (now env)) c true) /\
    history_file w' = history_file w /\
    cache_writes w' = S (cache_writes w) /\
    exit_code w' = Some 0.
Proof.
  intros Hs Hc He.
  destruct (main_empty_date budget env w old Hs Hc He)
    as [c [t [E [_ [_ [_ Hm]]]]]].
  exists c. split; [rewrite E; reflexivity|].
  cbv zeta. rewrite Hm. cbn. auto.
Qed.

Lemma empty_date_is_not_archived_witness :
  history_file (main 0 sample_env (world_with (Stored blank_date_record)))
  = [].
Proof.
  destruct (empty_date_is_not_archived 0 sample_env
              (world_with (Stored blank_date_record)) blank_date_record)
    as [c [_ [_ [H _]]]].
  - reflexivity.
  - reflexivity.
  - reflexivity.
  - exact H.
Defined.

(** X11. An invocation whose payload is not JSON does nothing: it draws no
    entropy, leaves the store and the history alone, prints nothing and
    exits with status 0, whatever the store holds. *)
Theorem non_json_payload_is_ignored budget env w :
  stdin_is_json env = false ->
  let w' := main budget env w in
  cache_file w' = cache_file w /\ cache_writes w' = cache_writes w /\
  history_file w' = history_file w /\ stdout w' = stdout w /\
  drawn w' = drawn w /\ exit_code w' = Some 0.
Proof.
  intros Hs. cbv zeta.
  rewrite (main_unparseable budget env w (or_introl Hs)).
  unfold set_exit. cbn. auto 10.
Qed.

Lemma non_json_payload_is_ignored_witness :
  let w' := main 3 (mkEnv sample_byte (mkDate 2026 10 3) false)
                 (world_with (Stored yesterday_record)) in
  cache_file w' = Stored yesterday_record /\ history_file w' = [] /\
  stdout w' = [] /\ exit_code w' = Some 0.
Proof.
  destruct (non_json_payload_is_ignored 3
              (mkEnv sample_byte (mkDate 2026 10 3) false)
              (world_with (Stored yesterday_record)) eq_refl)
    as [H1 [_ [H3 [H4 [_ H6]]]]].
  cbv zeta. auto.
Defined.

(** A store is settled after a run with a JSON payload, and a settled
    store is kept by any run of the same day. *)
Lemma main_settles budget env w :
  stdin_is_json env = true ->
  settled (format_date (now env)) (cache_file (main budget env w)).
Proof.
  intros Hs.
  destruct (main_outcomes budget env w)
    as [[Hm Hw]
       |[[c [t [h [_ [_ [_ [Ht [Hh Hm]]]]]]]]
       |[[r [t [_ [Hc [Hd [_ [Et Hm]]]]]]]
       |[[r [out [d [_ [Hc [Hd [Hsh [Hl [Ho Hm]]]]]]]]]
       |[r [d [x [_ [Hc [Hd [Hsh [Hx Hm]]]]]]]]]]]];
    rewrite Hm; unfold set_exit; cbn [cache_file].
  - destruct Hw as [Hw|[Hw|[r [Hc [Hd [Hsh Et]]]]]].
    + congruence.
    + left. exact Hw.
    + right. exists r. auto.
  - right. eexists. split; [reflexivity|]. auto.
  - right. eexists. split; [reflexivity|]. auto.
  - right. exists r. auto.
  - right. exists r. auto.
Qed.

Lemma settled_is_kept budget env w :
  settled (format_date (now env)) (cache_file w) ->
  cache_file (main budget env w) = cache_file w /\
  history_file (main budget env w) = history_file w.
Proof.
  intros Hset.
  destruct (main_outcomes budget env w)
    as [[Hm Hw]
       |[[c [t [h [_ [_ [_ [Ht [Hh Hm]]]]]]]]
       |[[r [t [_ [Hc [Hd [Hsh [Et Hm]]]]]]]
       |[[r [out [d [_ [Hc [Hd [Hsh [Hl [Ho Hm]]]]]]]]]
       |[r [d [x [_ [Hc [Hd [Hsh [Hx Hm]]]]]]]]]]]];
    rewrite Hm; unfold set_exit; cbn [cache_file history_file].
  - auto.
  - exfalso. destruct Hset as [Hu|[r [Hr [Hd _]]]];
      destruct Hh as [[Ha _]|[old [Ho [Hne _]]]]; congruence.
  - exfalso. destruct Hset as [Hu|[r' [Hr [_ [Hs'|Hth]]]]]; try congruence;
      assert (r' = r) by congruence; subst r'; congruence.
  - auto.
  - auto.
Qed.

(** X15. After an invocation with a JSON payload, a further invocation on
    the same calendar day (with any payload, entropy and budget) changes
    neither the stored record nor the history: the day keeps its first
    cast. *)
Theorem second_invocation_keeps_store budget1 budget2 env1 env2 w :
  stdin_is_json env1 = true ->
  format_date (now env2) = format_date (now env1) ->
  let w1 := main budget1 env1 w in
  let w2 := main budget2 env2 w1 in
  cache_file w2 = cache_file w1 /\ history_file w2 = history_file w1.
Proof.
  intros Hs Hd. cbv zeta.
  apply settled_is_kept. rewrite Hd.
  apply main_settles. exact Hs.
Qed.

Lemma second_invocation_keeps_store_witness :
  let w1 := main 0 sample_env (world_with (Stored yesterday_record)) in
  let w2 := main 2 (constant_env Byte.x41) w1 in
  cache_file w2 = cache_file w1 /\ history_file w2 = history_file w1.
Proof.
  apply (second_invocation_keeps_store 0 2 sample_env (constant_env Byte.x41)
           (world_with (Stored yesterday_record))); reflexivity.
Defined.

(* ------------------------------------------------------------------ *)
(** ** Becoming *)

Lemma all_bools_spec n :
  forall p, all_bools n p = true ->
            forall l, List.length l = n -> p l = true.
Proof.
  induction n as [|n IH]; intros p H l Hl.
  - destruct l; [exact H | discriminate].
  - destruct l as [|b l]; [discriminate|].
    cbn [all_bools] in H. apply andb_true_iff in H. destruct H as [Ht Hf].
    injection Hl as Hl.
    destruct b; [apply (IH _ Ht l Hl) | apply (IH _ Hf l Hl)].
Qed.

Lemma flip_check : all_bools 12 flip_ok = true.
Proof. vm_compute. reflexivity. Qed.

Lemma flip_six y0 c0 y1 c1 y2 c2 y3 c3 y4 c4 y5 c5 v0 v1 v2 v3 v4 v5 :
  let ls := [mkLine v0 y0 c0; mkLine v1 y1 c1; mkLine v2 y2 c2;
             mkLine v3 y3 c3; mkLine v4 y4 c4; mkLine v5 y5 c5] in
  spec_encode (becoming_lines ls)
  = Z.lxor (spec_encode ls) (mask (push_changing 0 ls)) /\
  (existsb isChanging ls = true ->
   spec_encode (becoming_lines ls) <> spec_encode ls).
Proof.
  cbv zeta.
  pose proof (all_bools_spec 12 flip_ok flip_check
                [y0; y1; y2; y3; y4; y5; c0; c1; c2; c3; c4; c5] eq_refl)
    as H.
  unfold flip_ok in H. cbv zeta in H.
  apply andb_true_iff in H. destruct H as [H1 H2].
  apply Z.eqb_eq in H1. split; [exact H1|].
  intros Hc E.
  apply orb_true_iff in H2. destruct H2 as [H2|H2].
  - apply negb_true_iff in H2.
    change (existsb isChanging
              (lines_of_bits (firstn 6 [y0; y1; y2; y3; y4; y5;
                                       c0; c1; c2; c3; c4; c5])
                             (skipn 6 [y0; y1; y2; y3; y4; y5;
                                      c0; c1; c2; c3; c4; c5])))
      with (c0 || (c1 || (c2 || (c3 || (c4 || (c5 || false)))))) in H2.
    cbn [existsb isChanging] in Hc. congruence.
  - apply negb_true_iff, Z.eqb_neq in H2. apply H2. exact E.
Qed.

Lemma positions_six c0 c1 c2 c3 c4 c5 y0 y1 y2 y3 y4 y5 v0 v1 v2 v3 v4 v5 :
  let ls := [mkLine v0 y0 c0; mkLine v1 y1 c1; mkLine v2 y2 c2;
             mkLine v3 y3 c3; mkLine v4 y4 c4; mkLine v5 y5 c5] in
  push_changing 0 ls = changing_positions_of ls.
Proof. destruct c0, c1, c2, c3, c4, c5; reflexivity. Qed.

Lemma linesToBinary_six_value ls :
  List.length ls = 6%nat ->
  linesToBinary ls = Ok (spec_encode ls) /\ 0 <= spec_encode ls < 64.
Proof.
  intros H. split_six ls H.
  destruct y0, y1, y2, y3, y4, y5; vm_compute; intuition congruence.
Qed.

Lemma kw_at_inj b1 b2 :
  0 <= b1 < 64 -> 0 <= b2 < 64 -> kw_at b1 = kw_at b2 -> b1 = b2.
Proof.
  intros H1 H2 E. range_check table_distinct_ok 0 64%nat b1 H1 H.
  unfold table_distinct_ok in H.
  pose proof (forallb_Zrange _ 0 64%nat H b2) as H'. cbv beta in H'.
  specialize (H' ltac:(simpl; lia)).
  apply orb_true_iff in H'. destruct H' as [H'|H'].
  - apply negb_true_iff in H'.
    assert (jsnum_eqb (kw_at b1) (kw_at b2) = true) by (apply jsnum_eqb_eq, E).
    congruence.
  - apply Z.eqb_eq, H'.
Qed.

(** The fields [castHexagram] fills in from six lines. *)
Lemma cast_of_lines_fields ls :
  List.length ls = 6%nat ->
  exists n s m,
    cast_of_lines ls
    = Ok (Cast.mk ls (kw_at (spec_encode ls))
            (if existsb isChanging ls
             then kw_at (spec_encode (becoming_lines ls)) else JNull)
            (if existsb isChanging ls then push_changing 0 ls else [])
            n s m).
Proof.
  intros Hlen.
  destruct (linesToBinary_six_value ls Hlen) as [Ep _].
  destruct (linesToBinary_six_value (becoming_lines ls)) as [Eb _];
    [unfold becoming_lines; now rewrite length_map|].
  destruct (derived_valid nuclear ls (or_introl eq_refl) Hlen) as [n [En _]].
  destruct (derived_valid shadow ls (or_intror (or_introl eq_refl)) Hlen)
    as [s [Es _]].
  destruct (derived_valid mirror ls (or_intror (or_intror eq_refl)) Hlen)
    as [m [Em _]].
  exists n, s, m. unfold cast_of_lines. rewrite Ep. cbn [obind].
  fold (becoming_lines ls).
  destruct (existsb isChanging ls).
  - rewrite Eb. cbn [obind fst snd]. rewrite En, Es, Em. reflexivity.
  - cbn [obind fst snd]. rewrite En, Es, Em. reflexivity.
Qed.

(** X12. In every Cast of [castHexagram] the changing positions are the
    1-based positions of the changing lines, in increasing order. With no
    changing line becoming is null; otherwise the becoming identifier is
    the table entry of the primary's code with exactly the bits of the
    changing positions flipped, and it always differs from the primary. *)
Theorem becoming_flips_changing_lines env w :
  exists c pb,
    castHexagram env w = (Ok c, advance 18 w) /\
    linesToBinary (Cast.lines c) = Ok pb /\
    Cast.primary c = kw_at pb /\
    Cast.changingPositions c = changing_positions_of (Cast.lines c) /\
    (Cast.changingPositions c = [] -> Cast.becoming c = JNull) /\
    (Cast.changingPositions c <> [] ->
     Cast.becoming c = kw_at (Z.lxor pb (mask (Cast.changingPositions c))) /\
     Cast.becoming c <> Cast.primary c).
Proof.
  rewrite castHexagram_run.
  pose proof (lines_at_length env 6 (drawn w)) as Hlen.
  set (ls := lines_at env (drawn w) 6) in *.
  destruct (cast_of_lines_fields ls Hlen) as [n [s [m E]]].
  destruct (linesToBinary_six_value ls Hlen) as [Ep Hp].
  destruct (linesToBinary_six_value (becoming_lines ls)) as [_ Hb];
    [unfold becoming_lines; now rewrite length_map|].
  pose proof (push_changing_nil ls 0) as Hnil.
  assert (F : spec_encode (becoming_lines ls)
              = Z.lxor (spec_encode ls) (mask (push_changing 0 ls)) /\
              push_changing 0 ls = changing_positions_of ls /\
              (existsb isChanging ls = true ->
               spec_encode (becoming_lines ls) <> spec_encode ls)).
  { clearbody ls. clear - Hlen. split_six ls Hlen.
    destruct (flip_six y0 c0 y1 c1 y2 c2 y3 c3 y4 c4 y5 c5 v0 v1 v2 v3 v4 v5)
      as [F1 F2].
    split; [exact F1|]. split; [apply positions_six | exact F2]. }
  destruct F as [F1 [F2 F3]].
  eexists. exists (spec_encode ls). rewrite E.
  split; [reflexivity|].
  cbn [Cast.lines Cast.primary Cast.becoming Cast.changingPositions].
  split; [exact Ep|]. split; [reflexivity|].
  destruct (existsb isChanging ls) eqn:Hch.
  - split; [exact F2|].
    assert (Hne : push_changing 0 ls <> []).
    { intros En. rewrite En in Hnil. discriminate. }
    split; [contradiction|]. intros _.
    rewrite <- F1. split; [reflexivity|].
    intros K. apply kw_at_inj in K; [|exact Hb|exact Hp].
    apply (F3 eq_refl K).
  - assert (En : push_changing 0 ls = []).
    { apply is_nil_spec. rewrite Hnil. reflexivity. }
    split; [rewrite <- F2; symmetry; exact En|].
    split; [reflexivity | contradiction].
Qed.

(* ------------------------------------------------------------------ *)
(** ** Single branches of the reveal chain *)

(** X13. On a same-day invocation after the first reveal, nothing is
    printed when the byte falls in the silent band, whatever the stored
    cast, and nothing is printed when it falls in the becoming band and the
    cast has no becoming. In both cases one byte is drawn, the record is
    written back as loaded and the invocation exits with status 0, for
    every budget. *)
Theorem silent_reveal budget env w r :
  stdin_is_json env = true ->
  cache_file w = Stored r ->
  DailyCache.date r = format_date (now env) ->
  DailyCache.shown r = true ->
  reveal_branch (byte_to_Z (randomByte env (drawn w))) = BSilent \/
  (reveal_branch (byte_to_Z (randomByte env (drawn w))) = BDerived Dbecoming
   /\ Cast.becoming (DailyCache.cast r) = JNull) ->
  main budget env w
  = mkWorld (Stored r) (history_file w) (stdout w) (S (cache_writes w))
            (drawn w + 1) (Some 0).
Proof.
  intros Hs Hc Hd Hsh Hbr.
  pose proof (main_same_day budget env w r Hs Hc Hd Hsh) as Hm.
  assert (E : reveal budget (DailyCache.cast r) env w = (Ok None, advance 1 w)).
  { unfold reveal, bind at 1, randomBytes. rewrite first_byte, Nat.add_0_r.
    destruct Hbr as [Hb|[Hb Hn]]; rewrite Hb.
    - reflexivity.
    - unfold formatDerived. cbn [is_mirror andb cast_field].
      rewrite Hn. reflexivity. }
  rewrite E in Hm. exact Hm.
Qed.

Lemma silent_reveal_witness :
  main 0 (constant_env Byte.xff) (world_with (Stored today_record))
  = mkWorld (Stored today_record) [] [] 1 1 (Some 0).
Proof.
  apply (silent_reveal 0 (constant_env Byte.xff)
           (world_with (Stored today_record)) today_record).
  - reflexivity.
  - reflexivity.
  - vm_compute. reflexivity.
  - reflexivity.
  - left. vm_compute. reflexivity.
Defined.

(** X14. When the byte of a same-day invocation falls in the mirror band
    and the stored cast is well formed, the line printed is the
    self-mirroring label with the primary's own entry exactly when the
    mirror identifier equals the primary (the tag is the Chinese one when
    the next byte is below 128), and the generic mirror line of the mirror
    identifier otherwise; in both cases in one of the five styles. *)
Theorem mirror_reveal budget env w r p m k :
  stdin_is_json env = true ->
  cache_file w = Stored r ->
  DailyCache.date r = format_date (now env) ->
  DailyCache.shown r = true ->
  cast_wf (DailyCache.cast r) = true ->
  Cast.primary (DailyCache.cast r) = JNum p ->
  Cast.mirror (DailyCache.cast r) = JNum m ->
  reveal_branch (byte_to_Z (randomByte env (drawn w))) = BDerived Dmirror ->
  byte_to_Z (randomByte env (drawn w + 2 + k)) < 250 ->
  (k + 1 < budget)%nat ->
  exists s,
    In s STYLES /\
    stdout (main budget env w)
    = stdout w
      ++ [if m =? p
          then TSelfMirror (byte_to_Z (randomByte env (drawn w + 1)) <? 128)
                           p (Some s)
          else TDerived Dmirror m (Some s)].
Proof.
  intros Hs Hc Hd Hsh Hwf Hp Hmi Hbr Hb Hk.
  pose proof (main_same_day budget env w r Hs Hc Hd Hsh) as Hm.
  destruct (cast_wf_spec _ Hwf) as [Vp [_ [_ [Vm _]]]].
  destruct (gua_entry_valid _ Vp) as [p' [gp [Ep [_ Egp]]]].
  destruct (gua_entry_valid _ Vm) as [m' [gm [Em [_ Egm]]]].
  assert (p' = p) by congruence. assert (m' = m) by congruence. subst p' m'.
  assert (E : exists s w1, In s STYLES /\
    reveal budget (DailyCache.cast r) env w
    = (Ok (Some (if m =? p
                 then TSelfMirror
                        (byte_to_Z (randomByte env (drawn w + 1)) <? 128)
                        p (Some s)
                 else TDerived Dmirror m (Some s))), w1)).
  { unfold reveal, bind at 1, randomBytes. rewrite first_byte, Nat.add_0_r.
    rewrite Hbr. unfold formatDerived. cbn [is_mirror andb cast_field].
    rewrite Hmi, Hp in *. cbn [jsnum_eqb].
    destruct (m =? p) eqn:Hmp.
    - destruct (getRandomStyle_ends k budget env (advance 1 (advance 1 w)))
        as [s [w1 [Eg Hin]]].
      + unfold advance. cbn [drawn].
        replace (drawn w + 1 + 1 + k)%nat with (drawn w + 2 + k)%nat by lia.
        exact Hb.
      + lia.
      + exists s, w1. split; [exact Hin|].
        unfold bind, randomBytes, lift, ret. rewrite first_byte.
        change (drawn (advance 1 w)) with (drawn w + 1)%nat.
        rewrite Nat.add_0_r, Egp. cbn [fst]. rewrite Eg. reflexivity.
    - destruct (getRandomStyle_ends (S k) budget env (advance 1 w))
        as [s [w1 [Eg Hin]]].
      + unfold advance. cbn [drawn].
        replace (drawn w + 1 + S k)%nat with (drawn w + 2 + k)%nat by lia.
        exact Hb.
      + lia.
      + exists s, w1. split; [exact Hin|].
        unfold bind, lift, ret. rewrite Egm. cbn [fst]. rewrite Eg.
        reflexivity. }
  destruct E as [s [w1 [Hin E]]]. exists s. split; [exact Hin|].
  rewrite E in Hm. rewrite Hm. cbn [stdout].
  destruct (m =? p); reflexivity.
Qed.

Lemma mirror_reveal_witness :
  exists s,
    In s STYLES /\
    stdout (main 2 (constant_env Byte.x41) (world_with (Stored qian_record)))
    = [TSelfMirror true 1 (Some s)].
Proof.
  destruct (mirror_reveal 2 (constant_env Byte.x41)
              (world_with (Stored qian_record)) qian_record 1 1 0%nat)
    as [s [Hin Ho]].
  - reflexivity.
  - reflexivity.
  - vm_compute. reflexivity.
  - reflexivity.
  - vm_compute. reflexivity.
  - reflexivity.
  - reflexivity.
  - vm_compute. reflexivity.
  - vm_compute. reflexivity.
  - lia.
  - exists s. split; [exact Hin | exact Ho].
Defined.

(* ------------------------------------------------------------------ *)
(** ** [castHexagram] returns the cast the entropy fixes *)

Lemma spec_coin_bit z : (if js_and z 1 =? 0 then 2 else 3) = spec_coin z.
Proof.
  rewrite js_and_1, Zmod_odd. unfold spec_coin.
  destruct (Z.odd z); reflexivity.
Qed.

Lemma line_at_spec env p : line_at env p = spec_line_at env p.
Proof.
  unfold line_at, drawn_line, line_of_bytes, bytes_at, spec_line_at.
  cbn [map seq nth reduce_add fold_left obind].
  rewrite !spec_coin_bit, Nat.add_0_r. reflexivity.
Qed.

Lemma lines_at_spec env p : lines_at env p 6 = spec_lines_at env p.
Proof.
  unfold spec_lines_at. cbn [lines_at map seq].
  rewrite !line_at_spec.
  repeat (f_equal; try lia).
Qed.

Lemma kw_at_canonical b : 0 <= b < 64 -> kw_at b = JNum (spec_toCanonical b).
Proof.
  intros Hb. range_check canonical_ok 0 64%nat b Hb H.
  apply jsnum_eqb_eq, H.
Qed.

Lemma encoded_id ls :
  List.length ls = 6%nat ->
  (let! binary := linesToBinary ls in Ok (kw_at binary)) = Ok (spec_id ls).
Proof.
  intros H. destruct (linesToBinary_six_value ls H) as [E Hb].
  rewrite E. cbn [obind]. unfold spec_id. now rewrite kw_at_canonical.
Qed.

(** [castHexagram]'s record for six lines is the one the specification's
    rule gives for them. *)
Lemma cast_of_lines_spec ls :
  List.length ls = 6%nat -> cast_of_lines ls = Ok (spec_cast_of ls).
Proof.
  intros Hlen.
  destruct (linesToBinary_six_value ls Hlen) as [Ep Hp].
  destruct (linesToBinary_six_value (becoming_lines ls)) as [Eb Hb];
    [unfold becoming_lines; now rewrite length_map|].
  assert (En : nuclear ls
               = Ok (JNum (spec_nuclear_at [2; 3; 4; 3; 4; 5]%nat ls))).
  { split_six ls Hlen. rewrite nuclear_six.
    apply (encoded_id [_; _; _; _; _; _]). reflexivity. }
  assert (Es : shadow ls = Ok (spec_id (map invert ls))).
  { apply encoded_id. now rewrite length_map. }
  assert (Em : mirror ls = Ok (spec_id (rev ls))).
  { apply encoded_id. now rewrite length_rev. }
  assert (F : spec_encode (becoming_lines ls)
              = Z.lxor (spec_encode ls) (mask (push_changing 0 ls)) /\
              push_changing 0 ls = changing_positions_of ls).
  { clear - Hlen. split_six ls Hlen.
    destruct (flip_six y0 c0 y1 c1 y2 c2 y3 c3 y4 c4 y5 c5 v0 v1 v2 v3 v4 v5)
      as [F1 _].
    split; [exact F1 | apply positions_six]. }
  destruct F as [F1 F2].
  pose proof (push_changing_nil ls 0) as Hnil.
  unfold cast_of_lines. rewrite Ep. cbn [obind].
  fold (becoming_lines ls). rewrite Eb, En, Es, Em.
  unfold spec_cast_of. cbv zeta. rewrite <- F2, Hnil.
  destruct (existsb isChanging ls) eqn:Hch; cbn [obind fst snd negb].
  - rewrite (kw_at_canonical _ Hb), (kw_at_canonical _ Hp), F1.
    reflexivity.
  - assert (E0 : push_changing 0 ls = []).
    { apply is_nil_spec. rewrite Hnil. reflexivity. }
    rewrite E0, (kw_at_canonical _ Hp). reflexivity.
Qed.

(** [castHexagram] reads the next 18 bytes of the source and returns the
    cast they fix. *)
Lemma castHexagram_spec env w :
  castHexagram env w = (Ok (spec_cast_at env (drawn w)), advance 18 w).
Proof.
  rewrite castHexagram_run, cast_of_lines_spec by apply lines_at_length.
  unfold spec_cast_at. now rewrite lines_at_spec.
Qed.

(* ------------------------------------------------------------------ *)
(** ** Day rollover *)

(** C6 (amended). On an invocation whose payload parses as JSON and whose
    stored record carries a non-empty date other than today's, exactly one
    history entry with the old record's date and Cast is appended; the new
    Cast is the one fixed by the next 18 bytes of the entropy source (three
    per line, bottom line first, every identifier the table entry of its
    lines' code), whatever the old record holds; it is stored under today's
    date with the shown flag set, and its primary reading is printed in the
    dx style. *)
Theorem day_rollover budget env w old :
  stdin_is_json env = true ->
  cache_file w = Stored old ->
  DailyCache.date old <> ""%string ->
  DailyCache.date old <> format_date (now env) ->
  let c := spec_cast_at env (drawn w) in
  exists t,
    castHexagram env w = (Ok c, advance 18 w) /\
    cast_wf c = true /\
    formatReading c dx = Ok t /\
    reading_of c dx t /\
    let w' := main budget env w in
    history_file w'
    = history_file w
      ++ [HistoryEntry.mk (DailyCache.date old) (DailyCache.cast old)] /\
    cache_file w' = Stored (DailyCache.mk (format_date (now env)) c true) /\
    cache_writes w' = S (cache_writes w) /\
    stdout w' = stdout w ++ [t] /\
    drawn w' = (drawn w + 18)%nat /\
    exit_code w' = Some 0.
Proof.
  intros Hs Hc Hnz Hne. cbv zeta.
  destruct (main_new_day budget env w old Hs Hc Hne Hnz)
    as [c [t [E [Hwf [Et [Hr Hm]]]]]].
  pose proof (castHexagram_spec env w) as Es.
  rewrite E in Es. injection Es as ->.
  exists t. repeat (split; [assumption|]).
  rewrite Hm. cbn. auto 6.
Qed.

Lemma day_rollover_witness :
  let w' := main 0 sample_env (world_with (Stored yesterday_record)) in
  map value (Cast.lines (spec_cast_at sample_env 0)) = [8; 7; 8; 7; 8; 7] /\
  Cast.primary (spec_cast_at sample_env 0) = JNum 64 /\
  history_file w' = [HistoryEntry.mk "2026-11-02" sample_cast] /\
  cache_file w'
  = Stored (DailyCache.mk "2026-11-03" (spec_cast_at sample_env 0) true) /\
  stdout w' = [TReading 64 dx None] /\
  exit_code w' = Some 0.
Proof.
  destruct (day_rollover 0 sample_env (world_with (Stored yesterday_record))
              yesterday_record)
    as [t [_ [_ [Et [_ [Hh [Hc [_ [Ho [_ Hx]]]]]]]]]].
  - reflexivity.
  - reflexivity.
  - discriminate.
  - vm_compute. discriminate.
  - cbv zeta. rewrite Hh, Hc, Ho, Hx.
    vm_compute in Et. injection Et as <-.
    repeat split; reflexivity.
Defined.

(** C6 as stated fails twice. A record dated yesterday, met by an
    invocation whose payload does not parse: nothing is appended, no Cast
    is made, nothing is printed. A record whose date is the empty string,
    met by an invocation with a JSON payload: a new Cast is stored and
    printed, but no history entry is appended. *)
Lemma day_rollover_needs_payload_and_date :
  let w1 := world_with (Stored yesterday_record) in
  let w2 := world_with (Stored blank_date_record) in
  (DailyCache.date yesterday_record <> format_date (now sample_env_no_json) /\
   history_file (main 3 sample_env_no_json w1) = [] /\
   cache_file (main 3 sample_env_no_json w1) = Stored yesterday_record /\
   stdout (main 3 sample_env_no_json w1) = []) /\
  (DailyCache.date blank_date_record <> format_date (now sample_env) /\
   history_file (main 3 sample_env w2) = [] /\
   stdout (main 3 sample_env w2) = [TReading 64 dx None]).
Proof.
  cbv zeta. repeat split; try (vm_compute; reflexivity);
    vm_compute; discriminate.
Qed.

(* ------------------------------------------------------------------ *)
(** ** Missing and unparseable stores *)

(** C9 (amended). If the store is missing and the payload parses as JSON,
    the invocation creates and persists a fresh record: the Cast fixed by
    the next 18 bytes of the entropy source, under today's date with the
    shown flag set; it prints the primary reading and appends nothing to
    the history. If the store exists but does not parse, then whatever the
    payload the invocation ends in the catch clause: nothing printed,
    nothing appended, nothing written, so the store is left as it was. In
    both cases, whatever the payload, the exit status is 0. *)
Theorem missing_or_unparseable_store budget env w :
  (stdin_is_json env = true -> cache_file w = Absent ->
   let c := spec_cast_at env (drawn w) in
   exists t,
     castHexagram env w = (Ok c, advance 18 w) /\
     cast_wf c = true /\
     formatReading c dx = Ok t /\
     reading_of c dx t /\
     let w' := main budget env w in
     cache_file w' = Stored (DailyCache.mk (format_date (now env)) c true) /\
     cache_writes w' = S (cache_writes w) /\
     history_file w' = history_file w /\
     stdout w' = stdout w ++ [t] /\
     drawn w' = (drawn w + 18)%nat /\
     exit_code w' = Some 0) /\
  (cache_file w = Unparseable ->
   let w' := main budget env w in
   cache_file w' = Unparseable /\
   cache_writes w' = cache_writes w /\
   history_file w' = history_file w /\
   stdout w' = stdout w /\
   drawn w' = drawn w /\
   exit_code w' = Some 0) /\
  (cache_file w = Absent \/ cache_file w = Unparseable ->
   exit_code (main budget env w) = Some 0).
Proof.
  assert (Hmiss : stdin_is_json env = true -> cache_file w = Absent ->
                  exists t,
                    formatReading (spec_cast_at env (drawn w)) dx = Ok t /\
                    cast_wf (spec_cast_at env (drawn w)) = true /\
                    reading_of (spec_cast_at env (drawn w)) dx t /\
                    main budget env w
                    = mkWorld (Stored (DailyCache.mk (format_date (now env))
                                         (spec_cast_at env (drawn w)) true))
                              (history_file w) (stdout w ++ [t])
                              (S (cache_writes w)) (drawn w + 18) (Some 0)).
  { intros Hs Hc.
    destruct (main_missing_store budget env w Hs Hc)
      as [c [t [E [Hwf [Et [Hr Hm]]]]]].
    pose proof (castHexagram_spec env w) as Es.
    rewrite E in Es. injection Es as ->.
    exists t. auto. }
  split; [|split].
  - intros Hs Hc. cbv zeta.
    destruct (Hmiss Hs Hc) as [t [Et [Hwf [Hr Hm]]]].
    exists t. split; [apply castHexagram_spec|].
    repeat (split; [assumption|]).
    rewrite Hm. cbn. auto 6.
  - intros Hc. cbv zeta.
    rewrite (main_unparseable budget env w (or_intror Hc)).
    unfold set_exit. cbn. rewrite Hc. auto 6.
  - intros [Hc|Hc].
    + destruct (stdin_is_json env) eqn:Hs.
      * destruct (Hmiss eq_refl Hc) as [t [_ [_ [_ Hm]]]].
        rewrite Hm. reflexivity.
      * rewrite (main_unparseable budget env w (or_introl Hs)). reflexivity.
    + rewrite (main_unparseable budget env w (or_intror Hc)). reflexivity.
Qed.

Lemma missing_or_unparseable_store_witness :
  (let w' := main 0 sample_env (world_with Unparseable) in
   cache_file w' = Unparseable /\
   cache_writes w' = 0%nat /\
   history_file w' = [] /\
   stdout w' = [] /\
   drawn w' = 0%nat /\
   exit_code w' = Some 0) /\
  (let w' := main 0 sample_env (world_with Absent) in
   map value (Cast.lines (spec_cast_at sample_env 0)) = [8; 7; 8; 7; 8; 7] /\
   cache_file w'
   = Stored (DailyCache.mk "2026-11-03" (spec_cast_at sample_env 0) true) /\
   history_file w' = [] /\
   stdout w' = [TReading 64 dx None] /\
   exit_code w' = Some 0) /\
  exit_code (main 0 sample_env_no_json (world_with Absent)) = Some 0.
Proof.
  destruct (missing_or_unparseable_store 0 sample_env (world_with Unparseable))
    as [_ [Hu _]].
  destruct (missing_or_unparseable_store 0 sample_env (world_with Absent))
    as [Ha _].
  destruct (missing_or_unparseable_store 0 sample_env_no_json
              (world_with Absent)) as [_ [_ Hx]].
  split; [apply Hu; reflexivity|]. split; [|apply Hx; left; reflexivity].
  destruct (Ha eq_refl eq_refl) as [t [_ [_ [Et [_ [Hc [_ [Hh [Ho [_ He]]]]]]]]]].
  cbv zeta. rewrite Hc, Hh, Ho, He.
  vm_compute in Et. injection Et as <-.
  repeat split; reflexivity.
Defined.

(** C9 as stated fails on an unparseable store: the invocation does not
    fall back to a fresh record; it writes nothing and the store stays
    unparseable (and would on every later invocation). *)
Lemma unparseable_store_not_recovered :
  let w := world_with Unparseable in
  stdin_is_json sample_env = true /\
  main 5 sample_env w = set_exit 0 w /\
  cache_writes (main 5 sample_env w) = 0%nat /\
  cache_file (main 5 sample_env (main 5 sample_env w)) = Unparseable /\
  (forall c, cache_file (main 5 sample_env w) <> Stored c).
Proof.
  cbv zeta. repeat split; try reflexivity. intros c. discriminate.
Qed.
